(** * SeedCash: key derivation and address encoding

    A shallow embedding of [seedcash/models/btc_functions.py],
    [seedcash/models/seed.py] and [seedcash/models/seed_storage.py].  Python integers are [Z], [bytes] objects are
    lists of integers in [0, 256), [str] objects are lists of Unicode code
    points, and a raised exception is the [Raise] branch of [result].  The
    digests of [hashlib] and [hmac], the curve operations of [ecdsa] and
    the word list resource are interfaces (type classes); [base58] is
    modelled in full.  The second half of the file instantiates the
    interfaces with SHA-2, RIPEMD-160, HMAC, PBKDF2 and secp256k1, so that
    every statement can be run on real inputs. *)

From Stdlib Require Import ZArith List Lia Bool String Ascii.
From Bignums Require Import BigZ.
From stdpp Require Import base numbers list strings gmap.

Local Open Scope Z_scope.

(** ** Python values *)

Abbreviation bytes := (list Z) (only parsing).

(** A [str] is its sequence of code points. *)
Abbreviation str := (list Z) (only parsing).

Definition str_of (s : string) : str :=
  map (fun a => Z.of_N (N_of_ascii a)) (list_ascii_of_string s).

(** ** Exceptions

    The built-in and library exception classes the code can meet, and the
    one class the repository declares, [InvalidSeedException].  The handler
    at the end of [Seed._validate_mnemonic] wraps a foreign exception in a
    message built from it; [ValidationError] keeps the cause instead of
    the rendered text. *)

Inductive builtin_exn : Type :=
| OverflowError
| ValueError
| IndexError
| AssertionError
| BinasciiError
| UnicodeEncodeError
| MalformedPointError
| TypeError
| AttributeError (attr : string)
| PlainException (msg : str).

Inductive seed_msg : Type :=
| Msg (text : str)
| ValidationError (cause : builtin_exn).

Inductive exn : Type :=
| Builtin (e : builtin_exn)
| InvalidSeedException (m : seed_msg).

Coercion Builtin : builtin_exn >-> exn.


(** The outcome of a call: a value, a raised exception, or [OutOfFuel]
    when a loop of the model has used up its bound (the code would still
    be running). *)
Inductive result (A : Type) : Type :=
| Ok (a : A)
| Raise (e : exn)
| OutOfFuel.

Arguments Ok {A} a.
Arguments Raise {A} e.
Arguments OutOfFuel {A}.

Definition bind {A B} (m : result A) (k : A -> result B) : result B :=
  match m with
  | Ok a => k a
  | Raise e => Raise e
  | OutOfFuel => OutOfFuel
  end.

Declare Scope result_scope.
Delimit Scope result_scope with result.
Notation "x <- m ;; k" := (bind m (fun x => k))
  (at level 100, m at next level, right associativity) : result_scope.
Local Open Scope result_scope.

Definition is_ok {A} (r : result A) : bool :=
  match r with Ok _ => true | _ => false end.

Fixpoint mapM {A B} (f : A -> result B) (l : list A) : result (list B) :=
  match l with
  | [] => Ok []
  | x :: r => y <- f x ;; ys <- mapM f r ;; Ok (y :: ys)
  end.

Fixpoint foldM {A S} (f : S -> A -> result S) (l : list A) (s : S) : result S :=
  match l with
  | [] => Ok s
  | x :: r => s' <- f s x ;; foldM f r s'
  end.

(** [a << n]; a negative shift count raises [ValueError]. *)
Definition py_shiftl (a n : Z) : result Z :=
  if n <? 0 then Raise ValueError else Ok (Z.shiftl a n).

(** ** Slices and indexing *)

Definition norm_idx (len i : Z) : Z :=
  if i <? 0 then Z.max 0 (len + i) else Z.min i len.

(** [l[start:stop]]; [None] is an omitted bound. *)
Definition py_slice {A} (l : list A) (start stop : option Z) : list A :=
  let len := Z.of_nat (length l) in
  let s := match start with None => 0 | Some i => norm_idx len i end in
  let e := match stop with None => len | Some i => norm_idx len i end in
  take (Z.to_nat (e - s)) (drop (Z.to_nat s) l).

(** [l[i]] with Python's negative indices. *)
Definition py_index {A} (l : list A) (i : Z) : result A :=
  let len := Z.of_nat (length l) in
  let j := if i <? 0 then len + i else i in
  if (j <? 0) || (len <=? j) then Raise IndexError
  else match l !! Z.to_nat j with
       | Some x => Ok x
       | None => Raise IndexError
       end.

(** [l.index(x)]: the first position of [x], [ValueError] when absent. *)
Fixpoint list_index (x : str) (l : list str) : result Z :=
  match l with
  | [] => Raise ValueError
  | y :: r => if decide (y = x) then Ok 0
              else i <- list_index x r ;; Ok (i + 1)
  end.

(** [sep.join(l)] *)
Fixpoint py_join {A} (sep : list A) (l : list (list A)) : list A :=
  match l with
  | [] => []
  | [x] => x
  | x :: r => x ++ sep ++ py_join sep r
  end.

(** [s.lstrip(c)] for a single character [c] and its count. *)
Fixpoint lstrip (c : Z) (l : list Z) : list Z :=
  match l with
  | x :: r => if x =? c then lstrip c r else l
  | [] => []
  end.

(** ** Integers, digits and byte strings *)

(** The value of a big-endian digit string in base [B]. *)
Definition from_digits (B : Z) (l : list Z) : Z :=
  fold_left (fun acc d => acc * B + d) l 0.

(** The [len] low digits of [n] in base [B], most significant first. *)
Fixpoint be_digits (B : Z) (len : nat) (n : Z) : list Z :=
  match len with
  | O => []
  | S k => be_digits B k (n / B) ++ [n mod B]
  end.

(** The digits of [n] without leading zeros: the loop
    [while n: n, d = divmod(n, B); out = [d] + out], which runs at most
    once per bit of [n]. *)
Fixpoint min_digits_loop (fuel : nat) (B : Z) (n : Z) (out : list Z) : list Z :=
  match fuel with
  | O => out
  | S f => if n =? 0 then out
           else min_digits_loop f B (n / B) (n mod B :: out)
  end.

Definition min_digits (B : Z) (n : Z) : list Z :=
  min_digits_loop (S (Z.to_nat (Z.log2 n))) B n [].

(** [int.from_bytes(b, "big")] *)
Definition int_from_bytes (b : bytes) : Z := from_digits 256 b.

Definition be_bytes (len : nat) (n : Z) : bytes := be_digits 256 len n.

(** [n.to_bytes(len, "big")] *)
Definition int_to_bytes (n : Z) (len : nat) : result bytes :=
  if (0 <=? n) && (n <? 256 ^ Z.of_nat len) then Ok (be_bytes len n)
  else Raise OverflowError.

(** Number of hexadecimal digits of ["%x" % n], [n >= 0]. *)
Definition hexlen (n : Z) : Z :=
  if n <=? 0 then 1 else Z.log2 n / 4 + 1.

(** ** Text: UTF-8, hexadecimal, binary *)

(** One code point of [s.encode("utf-8")]; surrogates are refused. *)
Definition utf8_encode_cp (c : Z) : result bytes :=
  if c <? 0x80 then Ok [c]
  else if c <? 0x800 then
    Ok [Z.lor 0xC0 (Z.shiftr c 6); Z.lor 0x80 (Z.land c 0x3F)]
  else if (0xD800 <=? c) && (c <=? 0xDFFF) then Raise UnicodeEncodeError
  else if c <? 0x10000 then
    Ok [Z.lor 0xE0 (Z.shiftr c 12);
        Z.lor 0x80 (Z.land (Z.shiftr c 6) 0x3F);
        Z.lor 0x80 (Z.land c 0x3F)]
  else
    Ok [Z.lor 0xF0 (Z.shiftr c 18);
        Z.lor 0x80 (Z.land (Z.shiftr c 12) 0x3F);
        Z.lor 0x80 (Z.land (Z.shiftr c 6) 0x3F);
        Z.lor 0x80 (Z.land c 0x3F)].

Fixpoint encode_utf8 (s : str) : result bytes :=
  match s with
  | [] => Ok []
  | c :: r => b <- utf8_encode_cp c ;; bs <- encode_utf8 r ;; Ok (b ++ bs)
  end.

Definition hexdigit (d : Z) : Z := if d <? 10 then 48 + d else 87 + d.

(** [b.hex()] *)
Definition bytes_hex (b : bytes) : str :=
  flat_map (fun x => [hexdigit (x / 16); hexdigit (x mod 16)]) b.

Definition hexval (c : Z) : option Z :=
  if (48 <=? c) && (c <=? 57) then Some (c - 48)
  else if (97 <=? c) && (c <=? 102) then Some (c - 87)
  else if (65 <=? c) && (c <=? 70) then Some (c - 55)
  else None.

Definition is_ascii_space (c : Z) : bool :=
  (c =? 32) || ((9 <=? c) && (c <=? 13)).

(** [bytes.fromhex(s)]: pairs of hexadecimal digits, white space allowed
    between the pairs. *)
Fixpoint bytes_fromhex (s : str) : result bytes :=
  match s with
  | [] => Ok []
  | c :: r =>
      if is_ascii_space c then bytes_fromhex r
      else match r with
           | d :: r' =>
               match hexval c, hexval d with
               | Some h, Some l =>
                   bs <- bytes_fromhex r' ;; Ok (16 * h + l :: bs)
               | _, _ => Raise ValueError
               end
           | [] => Raise ValueError
           end
  end.

(** [bin(n)[2:]] for [n >= 0], as the characters ['0'] and ['1']. *)
Definition bin_str (n : Z) : str :=
  match min_digits 2 n with
  | [] => [48]
  | ds => map (fun d => 48 + d) ds
  end.

(** [s.zfill(width)] for a string without sign. *)
Definition zfill (width : Z) (s : str) : str :=
  repeat 48 (Z.to_nat (width - Z.of_nat (length s))) ++ s.

(** [int(s, 2)] for a string of binary digits; the empty string and any
    other character raise [ValueError]. *)
Definition int_base2 (s : str) : result Z :=
  match s with
  | [] => Raise ValueError
  | _ => if forallb (fun c => (c =? 48) || (c =? 49)) s
         then Ok (from_digits 2 (map (fun c => c - 48) s))
         else Raise ValueError
  end.

(** ** Library interfaces

    [hashlib] and [hmac] digests, and the operations of [ecdsa] on
    secp256k1 that the wallet calls. *)

Class Hashlib : Type := {
  (** [hashlib.sha256(data).digest()] *)
  hashlib_sha256 : bytes -> bytes;
  (** [hashlib.new("ripemd160", data).digest()] *)
  hashlib_ripemd160 : bytes -> bytes;
  (** [hmac.new(key, data, hashlib.sha512).digest()] *)
  hmac_new_sha512 : bytes -> bytes -> bytes;
  (** [hashlib.pbkdf2_hmac("sha512", password, salt, iterations, dklen)] *)
  pbkdf2_hmac_sha512 : bytes -> bytes -> Z -> Z -> bytes
}.

(** Digest sizes and byte ranges of the four functions. *)
Class HashlibSizes (H : Hashlib) : Prop := {
  sha256_length : forall d, length (hashlib_sha256 d) = 32%nat;
  ripemd160_length : forall d, length (hashlib_ripemd160 d) = 20%nat;
  ripemd160_range : forall d, Forall (fun b => 0 <= b < 256) (hashlib_ripemd160 d);
  sha256_range : forall d, Forall (fun b => 0 <= b < 256) (hashlib_sha256 d);
  hmac_sha512_length : forall k d, length (hmac_new_sha512 k d) = 64%nat;
  pbkdf2_range :
    forall p s c n, Forall (fun b => 0 <= b < 256) (pbkdf2_hmac_sha512 p s c n)
}.

Class Ecdsa : Type := {
  point : Type;
  (** [generator * k] *)
  generator_mul : Z -> point;
  (** [p + q] *)
  point_add : point -> point -> point;
  (** [VerifyingKey.from_string(b, curve=SECP256k1).pubkey.point] *)
  vk_from_string : bytes -> result point;
  (** [VerifyingKey.from_public_point(p, curve=SECP256k1)
       .to_string("compressed")] *)
  vk_from_public_point : point -> result bytes;
  (** [SigningKey.from_string(k, curve=SECP256k1).verifying_key
       .to_string("compressed")] *)
  sk_verifying_key : bytes -> result bytes
}.

(** [load_txt("bip39.txt")]: the non-empty stripped lines of the word
    list resource. *)
Class Resources : Type := {
  bip39_txt : list str
}.

(** [SECP256k1.order] *)
Definition SECP256k1_order : Z :=
  0xFFFFFFFFFFFFFFFFFFFFFFFFFFFFFFFEBAAEDCE6AF48A03BBFD25E8CD0364141.

(** *** ecdsa.util *)

Definition orderlen (order : Z) : Z := (1 + hexlen order) / 2.

(** [int(binascii.hexlify(string), 16)] *)
Definition string_to_number (s : bytes) : result Z :=
  match s with
  | [] => Raise ValueError
  | _ => Ok (int_from_bytes s)
  end.

(** [unhexlify(("%0" + str(2 * l) + "x") % num)], then the assertion on
    the length. *)
Definition number_to_string (num order : Z) : result bytes :=
  let l := orderlen order in
  if num <? 0 then Raise BinasciiError
  else
    let digits := Z.max (2 * l) (hexlen num) in
    if Z.odd digits then Raise BinasciiError
    else if digits / 2 =? l then Ok (be_bytes (Z.to_nat l) num)
         else Raise AssertionError.

(** *** base58 *)

Definition BITCOIN_ALPHABET : str :=
  str_of "123456789ABCDEFGHJKLMNPQRSTUVWXYZabcdefghijkmnopqrstuvwxyz".

Definition alphabet_char (d : Z) : Z :=
  nth (Z.to_nat d) BITCOIN_ALPHABET 0.

(** Position of a character in the alphabet. *)
Fixpoint find_char (c : Z) (l : list Z) : option Z :=
  match l with
  | [] => None
  | x :: r => if x =? c then Some 0
              else match find_char c r with
                   | Some i => Some (i + 1)
                   | None => None
                   end
  end.

(** [b58encode_int(i, default_one=False)] *)
Definition b58encode_int (i : Z) : list Z :=
  map alphabet_char (min_digits 58 i).

(** [b58encode(v)]: the leading zero bytes become as many ['1']. *)
Definition b58encode (v : bytes) : list Z :=
  let origlen := length v in
  let v' := lstrip 0 v in
  let newlen := length v' in
  let acc := int_from_bytes v' in
  repeat 49 (origlen - newlen)%nat ++ b58encode_int acc.

(** [b58decode_int(v)] *)
Definition b58decode_int (v : list Z) : result Z :=
  ds <- mapM (fun c => match find_char c BITCOIN_ALPHABET with
                       | Some d => Ok d
                       | None => Raise ValueError
                       end) v ;;
  Ok (from_digits 58 ds).

Fixpoint drop_while {A} (f : A -> bool) (l : list A) : list A :=
  match l with
  | x :: r => if f x then drop_while f r else l
  | [] => []
  end.

(** [v.rstrip()] *)
Definition rstrip_space (v : list Z) : list Z :=
  rev (drop_while is_ascii_space (rev v)).

(** [b58decode(v)] for a [str] argument: [scrub_input] encodes it as
    ASCII. *)
Definition b58decode (v : str) : result bytes :=
  let v := rstrip_space v in
  if forallb (fun c => (0 <=? c) && (c <? 128)) v then
    let origlen := length v in
    let v' := lstrip 49 v in
    let newlen := length v' in
    acc <- b58decode_int v' ;;
    Ok (repeat 0 (origlen - newlen)%nat ++ min_digits 256 acc)
  else Raise UnicodeEncodeError.

(** ** Further built-in functions

    Text and ranges, as the mnemonic generators and the storage use
    them. *)

(** [hex(n)[2:]] for [n >= 0]. *)
Definition hex_str (n : Z) : str :=
  match min_digits 16 n with
  | [] => [48]
  | ds => map hexdigit ds
  end.

(** [int(s, 16)] for a string of hexadecimal digits. *)
Definition int_base16 (s : str) : result Z :=
  match s with
  | [] => Raise ValueError
  | _ =>
      ds <- mapM (fun c => match hexval c with
                           | Some d => Ok d
                           | None => Raise ValueError
                           end) s ;;
      Ok (from_digits 16 ds)
  end.

(** [str(n)] *)
Definition dec_str (n : Z) : str :=
  let digits m :=
    match min_digits 10 m with
    | [] => [48]
    | ds => map (fun d => 48 + d) ds
    end in
  if n <? 0 then 45 :: digits (- n) else digits n.

(** [c.isspace()]: the characters that [strip()] and [split()] take for
    white space. *)
Definition is_space (c : Z) : bool :=
  ((9 <=? c) && (c <=? 13)) || ((28 <=? c) && (c <=? 32))
  || (c =? 0x85) || (c =? 0xA0) || (c =? 0x1680)
  || ((0x2000 <=? c) && (c <=? 0x200A))
  || (c =? 0x2028) || (c =? 0x2029) || (c =? 0x202F) || (c =? 0x205F)
  || (c =? 0x3000).

(** [s.strip()] *)
Definition str_strip (s : str) : str :=
  rev (drop_while is_space (rev (drop_while is_space s))).

(** [s.split()]: the maximal runs of characters that are not white
    space; [cur] is the run being read. *)
Fixpoint split_loop (s : str) (cur : str) : list str :=
  match s with
  | [] => match cur with [] => [] | _ => [cur] end
  | c :: r =>
      if is_space c then
        match cur with
        | [] => split_loop r []
        | _ => cur :: split_loop r []
        end
      else split_loop r (cur ++ [c])
  end.

Definition str_split (s : str) : list str := split_loop s [].

(** [range(start, stop, step)] for a positive [step]. *)
Definition py_range (start stop step : Z) : list Z :=
  map (fun k => start + step * Z.of_nat k)
      (seq 0 (Z.to_nat ((stop - start + step - 1) / step))).

(** [os.urandom(n)]: the bytes the operating system hands out. *)
Class Os : Type := {
  os_urandom : Z -> bytes
}.

(** ** btc_functions.py *)

Module BitcoinFunctions.

Definition sha256 `{Hashlib} (data : bytes) : bytes := hashlib_sha256 data.

Definition hmac_sha512 `{Hashlib} (key data : bytes) : bytes :=
  hmac_new_sha512 key data.

Definition hash160 `{Hashlib} (pubkey : bytes) : bytes :=
  let sha256_hash := hashlib_sha256 pubkey in
  let ripemd160_hash := hashlib_ripemd160 sha256_hash in
  ripemd160_hash.

(** The inner loop of [convert_bits]:
    [while bits >= to_bits: bits -= to_bits; ret.append(...)]. *)
Fixpoint convert_bits_drain (fuel : nat) (acc bits to_bits maxv : Z)
    (ret : list Z) : result (Z * list Z) :=
  if bits >=? to_bits then
    match fuel with
    | O => OutOfFuel
    | S f =>
        let bits := bits - to_bits in
        convert_bits_drain f acc bits to_bits maxv
          (ret ++ [Z.land (Z.shiftr acc bits) maxv])
    end
  else Ok (bits, ret).

(** One round of [for value in data]. *)
Definition convert_bits_step (from_bits to_bits maxv : Z)
    (st : Z * Z * list Z) (value : Z) : result (Z * Z * list Z) :=
  let '(acc, bits, ret) := st in
  a <- py_shiftl acc from_bits ;;
  let acc := Z.lor a value in
  let bits := bits + from_bits in
  r <- convert_bits_drain (Z.to_nat bits) acc bits to_bits maxv ret ;;
  Ok (acc, fst r, snd r).

Definition convert_bits (data : list Z) (from_bits to_bits : Z) (pad : bool)
    : result (list Z) :=
  m <- py_shiftl 1 to_bits ;;
  let maxv := m - 1 in
  st <- foldM (convert_bits_step from_bits to_bits maxv) data (0, 0, []) ;;
  let '(acc, bits, ret) := st in
  if pad && negb (bits =? 0) then
    a <- py_shiftl acc (to_bits - bits) ;;
    Ok (ret ++ [Z.land a maxv])
  else Ok ret.

Definition polymod_step (c d : Z) : Z :=
  let c0 := Z.shiftr c 35 in
  let c := Z.lxor (Z.shiftl (Z.land c 0x07FFFFFFFF) 5) d in
  let c := if Z.land c0 0x01 =? 0 then c else Z.lxor c 0x98F2BC8E61 in
  let c := if Z.land c0 0x02 =? 0 then c else Z.lxor c 0x79B76D99E2 in
  let c := if Z.land c0 0x04 =? 0 then c else Z.lxor c 0xF33E5FB3C4 in
  let c := if Z.land c0 0x08 =? 0 then c else Z.lxor c 0xAE2EABE2A8 in
  let c := if Z.land c0 0x10 =? 0 then c else Z.lxor c 0x1E4F43E470 in
  c.

Definition polymod (values : list Z) : Z :=
  Z.lxor (fold_left polymod_step values 1) 1.

Definition CHARSET : str := str_of "qpzry9x8gf2tvdw0s3jn54khce6mua7l".

Definition encode_base32 (data : list Z) : result str :=
  mapM (py_index CHARSET) data.

Definition dictionary_BIP39 `{Resources} : list str := bip39_txt.

(** The first loop reads the blocks of eleven characters, the second
    looks the words up. *)
Definition binmnemonic_to_mnemonic `{Resources} (bin_mnemonic : str)
    : result (list str) :=
  let list39 := dictionary_BIP39 in
  let n := Z.of_nat (length bin_mnemonic) in
  index <- mapM (fun i =>
                   let block := py_slice bin_mnemonic (Some i) (Some (i + 11)) in
                   int_base2 block)
                (py_range 0 n 11) ;;
  mapM (fun index_word => py_index list39 index_word) index.

(** The last word from the words before it and the bits chosen for it.
    The calls of [logger.info] and of [print] are left out. *)
Definition get_mnemonic `{Hashlib} `{Resources}
    (incomplete_mnemonic : list str) (last_bits : str) : result (list str) :=
  let len_checksum := 11 - Z.of_nat (length last_bits) in
  let string_mnemonic := py_join [32] incomplete_mnemonic in
  let list39 := dictionary_BIP39 in
  let list_mnemonic := str_split (str_strip string_mnemonic) in
  list_index_bi <-
    mapM (fun word => index <- list_index word list39 ;;
                      Ok (zfill 11 (bin_str index))) list_mnemonic ;;
  let first_bits := concat list_index_bi in
  let initial_bits := first_bits ++ last_bits in
  decimal_incomplet_mnemonic <- int_base2 initial_bits ;;
  let hexa_incomplet_mnemonic :=
    zfill ((Z.of_nat (length initial_bits) + 7) / 8 * 2)
          (hex_str decimal_incomplet_mnemonic) in
  byte_incomplet_mnemonic <- bytes_fromhex hexa_incomplet_mnemonic ;;
  let hexa_hashmnemonic :=
    bytes_hex (hashlib_sha256 byte_incomplet_mnemonic) in
  hash_int <- int_base16 hexa_hashmnemonic ;;
  let bin_hashmnemonic := zfill 256 (bin_str hash_int) in
  let checksum := py_slice bin_hashmnemonic None (Some len_checksum) in
  let bits_mnemonic := initial_bits ++ checksum in
  binmnemonic_to_mnemonic bits_mnemonic.

Definition seed_generator `{Hashlib} (seed passphrase : str) : result str :=
  mnemonic_bytes <- encode_utf8 seed ;;
  passphrase_bytes <- encode_utf8 passphrase ;;
  let salt_bytes := str_of "mnemonic" ++ passphrase_bytes in
  let iterations := 2048 in
  let key_length := 64 in
  let bytes_seed :=
    pbkdf2_hmac_sha512 mnemonic_bytes salt_bytes iterations key_length in
  let hexa_final_seed := bytes_hex bytes_seed in
  Ok hexa_final_seed.

Definition get_private_and_code `{Hashlib} (seed : str)
    : result (bytes * bytes) :=
  seed_bytes <- bytes_fromhex seed ;;
  let hmac_hash := hmac_new_sha512 (str_of "Bitcoin seed") seed_bytes in
  let private_master_key := py_slice hmac_hash None (Some 32) in
  let private_master_code := py_slice hmac_hash (Some 32) None in
  Ok (private_master_key, private_master_code).

Definition public_master_key_compressed_generaitor `{Ecdsa}
    (private_master_key_bytes : bytes) : result bytes :=
  sk_verifying_key private_master_key_bytes.

Definition fingerprint_bytes `{Hashlib}
    (compressed_master_public_key_bytes : bytes) : bytes :=
  let sha256_hash := hashlib_sha256 compressed_master_public_key_bytes in
  let fingerprint :=
    py_slice (hashlib_ripemd160 sha256_hash) None (Some 4) in
  fingerprint.

Definition child_key_hardened `{Hashlib} (parent_key parent_chain_code : bytes)
    (index : Z) (hardened : bool) : result (bytes * bytes) :=
  let curve_order := SECP256k1_order in
  let index := if hardened then Z.lor index 0x80000000 else index in
  index_bytes <- int_to_bytes index 4 ;;
  let data := [0] ++ parent_key ++ index_bytes in
  let I := hmac_sha512 parent_chain_code data in
  let Il := py_slice I None (Some 32) in
  let chain_code := py_slice I (Some 32) None in
  number_Il <- string_to_number Il ;;
  number_parent <- string_to_number parent_key ;;
  let number_derived := (number_Il + number_parent) mod curve_order in
  derivet_key <- number_to_string number_derived curve_order ;;
  Ok (derivet_key, chain_code).

(** The six values [derivation_m_44_145_0] returns. *)
Record account : Type := {
  depth : bytes;
  father_fingerprint : bytes;
  child_index : bytes;
  account_chain_code : bytes;
  account_key : bytes;
  account_public_key : bytes
}.

Definition derivation_m_44_145_0 `{Hashlib} `{Ecdsa} (hexa_seed : str)
    : result account :=
  master <- get_private_and_code hexa_seed ;;
  let private_master_key := fst master in
  let private_master_code := snd master in
  let purpose_index := 44 in
  purpose <- child_key_hardened private_master_key private_master_code
               purpose_index true ;;
  let coin_type_index := 145 in
  coin_type <- child_key_hardened (fst purpose) (snd purpose)
                 coin_type_index true ;;
  let account_index := 0 in
  acct <- child_key_hardened (fst coin_type) (snd coin_type)
            account_index true ;;
  account_public_key <- public_master_key_compressed_generaitor (fst acct) ;;
  depth <- int_to_bytes 3 1 ;;
  father_acount_publickey <-
    public_master_key_compressed_generaitor (fst coin_type) ;;
  let father_fingerprint := fingerprint_bytes father_acount_publickey in
  child_index <- int_to_bytes (Z.lor 0 0x80000000) 4 ;;
  Ok {| depth := depth;
        father_fingerprint := father_fingerprint;
        child_index := child_index;
        account_chain_code := snd acct;
        account_key := fst acct;
        account_public_key := account_public_key |}.

Definition xpriv_encode `{Hashlib}
    (depth father_fingerprint child_index account_chain_code account_key : bytes)
    : str :=
  let version := [0x04; 0x88; 0xad; 0xe4] in
  let data :=
    version ++ depth ++ father_fingerprint ++ child_index
      ++ account_chain_code ++ [0x00] ++ account_key in
  let checksum := py_slice (sha256 (sha256 data)) None (Some 4) in
  b58encode (data ++ checksum).

Definition xpub_encode `{Hashlib}
    (depth father_fingerprint child_index account_chain_code
       account_public_key : bytes) : str :=
  let version := [0x04; 0x88; 0xb2; 0x1e] in
  let data :=
    version ++ depth ++ father_fingerprint ++ child_index
      ++ account_chain_code ++ account_public_key in
  let checksum := py_slice (sha256 (sha256 data)) None (Some 4) in
  b58encode (data ++ checksum).

Definition fingerprint_hex `{Hashlib} `{Ecdsa} (hexa_seed : str)
    : result str :=
  a <- derivation_m_44_145_0 hexa_seed ;;
  public_key_compressed <- sk_verifying_key (account_key a) ;;
  let sha256_hash := hashlib_sha256 public_key_compressed in
  let fingerprint := py_slice (hashlib_ripemd160 sha256_hash) None (Some 4) in
  Ok (bytes_hex fingerprint).

(** The six values [xpub_decode] returns. *)
Record xpub_fields : Type := {
  xf_version : bytes;
  xf_depth : bytes;
  xf_fingerprint : bytes;
  xf_child_number : bytes;
  xf_chain_code : bytes;
  xf_public_key : bytes
}.

Definition xpub_decode (xpub : str) : result xpub_fields :=
  xpub_bytes <- b58decode xpub ;;
  Ok {| xf_version := py_slice xpub_bytes None (Some 4);
        xf_depth := py_slice xpub_bytes (Some 4) (Some 5);
        xf_fingerprint := py_slice xpub_bytes (Some 5) (Some 9);
        xf_child_number := py_slice xpub_bytes (Some 9) (Some 13);
        xf_chain_code := py_slice xpub_bytes (Some 13) (Some 45);
        xf_public_key := py_slice xpub_bytes (Some 45) (Some (-4)) |}.

Definition derive_public_child_key `{Hashlib} `{Ecdsa}
    (parent_public_key_bytes parent_chain_code : bytes) (index : Z)
    : result (bytes * bytes) :=
  let order := SECP256k1_order in
  index_bytes <- int_to_bytes index 4 ;;
  let data := parent_public_key_bytes ++ index_bytes in
  let I := hmac_new_sha512 parent_chain_code data in
  let IL := py_slice I None (Some 32) in
  let IR := py_slice I (Some 32) None in
  let IL_int := int_from_bytes IL in
  if IL_int >=? order then Raise ValueError
  else
    parent_public_key <- vk_from_string parent_public_key_bytes ;;
    let child_point := point_add (generator_mul IL_int) parent_public_key in
    child_public_key_bytes <- vk_from_public_point child_point ;;
    let child_chain_code := IR in
    Ok (child_public_key_bytes, child_chain_code).

Definition public_key_to_legacy_address `{Hashlib} (public_key_bytes : bytes)
    : str :=
  let sha256 := hashlib_sha256 public_key_bytes in
  let ripemd160_hash := hashlib_ripemd160 sha256 in
  let versioned_hash := [0x00] ++ ripemd160_hash in
  let checksum :=
    py_slice (hashlib_sha256 (hashlib_sha256 versioned_hash)) None (Some 4) in
  let address_bytes := versioned_hash ++ checksum in
  b58encode address_bytes.

Definition create_checksum (prefix : str) (payload : list Z) : list Z :=
  let values := map (fun x => Z.land x 0x1F) prefix ++ [0] ++ payload in
  let polymod_result := polymod (values ++ [0; 0; 0; 0; 0; 0; 0; 0]) in
  map (fun i => Z.land (Z.shiftr polymod_result (5 * (7 - i))) 0x1F)
      [0; 1; 2; 3; 4; 5; 6; 7].

Definition public_key_to_cashaddr_address `{Hashlib} (pubkey : bytes)
    : result str :=
  let version_byte := 0x00 in
  let payload := [version_byte] ++ hash160 pubkey in
  payload_5bit <- convert_bits payload 8 5 true ;;
  let checksum := create_checksum (str_of "bitcoincash") payload_5bit in
  encoded <- encode_base32 (payload_5bit ++ checksum) ;;
  Ok (str_of "bitcoincash:" ++ encoded).

Definition xpub_to_legacy_address `{Hashlib} `{Ecdsa} (xpub : str)
    (address_index : Z) : result str :=
  f <- xpub_decode xpub ;;
  chain <- derive_public_child_key (xf_public_key f) (xf_chain_code f) 0 ;;
  addr <- derive_public_child_key (fst chain) (snd chain) address_index ;;
  Ok (public_key_to_legacy_address (fst addr)).

Definition xpub_to_cashaddr_address `{Hashlib} `{Ecdsa} (xpub : str)
    (address_index : Z) : result str :=
  f <- xpub_decode xpub ;;
  chain <- derive_public_child_key (xf_public_key f) (xf_chain_code f) 0 ;;
  addr <- derive_public_child_key (fst chain) (snd chain) address_index ;;
  public_key_to_cashaddr_address (fst addr).

Definition generate_random_seed `{Hashlib} `{Resources} `{Os} (num_words : Z)
    : result (list str) :=
  if negb (existsb (Z.eqb num_words) [12; 15; 18; 21; 24]) then
    Raise ValueError
  else
    let entropy_bits := (num_words * 11 * 32) / 33 in
    let checksum_bits := entropy_bits / 32 in
    let entropy_bytes_count := entropy_bits / 8 in
    let entropy_bytes := os_urandom entropy_bytes_count in
    let entropy_binary :=
      concat (map (fun byte => zfill 8 (bin_str byte)) entropy_bytes) in
    let hash_hex := bytes_hex (hashlib_sha256 entropy_bytes) in
    hash_int <- int_base16 hash_hex ;;
    let hash_binary := zfill 256 (bin_str hash_int) in
    let checksum := py_slice hash_binary None (Some checksum_bits) in
    let full_binary := entropy_binary ++ checksum in
    binmnemonic_to_mnemonic full_binary.

End BitcoinFunctions.

(** ** seed.py *)

Module Seed.

(** Values held by the attributes of an instance. *)
Inductive pyval : Type :=
| VStr (s : str)
| VList (l : list str)
| VBytes (b : bytes).

#[global] Instance pyval_eq_dec : EqDecision pyval.
Proof. solve_decision. Defined.

(** An object is either a [Seed] instance, given by its [__dict__], or a
    value of another class. *)
Inductive pyobj : Type :=
| SeedInstance (dict : gmap string pyval)
| OtherObject (v : pyval).

(** The names the class [Seed] itself defines: methods and properties. *)
Definition class_attrs : list string :=
  ["__init__"; "get_wordlist"; "_validate_mnemonic"; "generate_seed";
   "mnemonic_str"; "mnemonic_list"; "wordlist_language_code";
   "mnemonic_display_str"; "mnemonic_display_list"; "has_passphrase";
   "passphrase"; "passphrase_display"; "set_passphrase"; "wordlist";
   "get_fingerprint"; "__eq__"]%string.

(** [self.name] for a name that the class does not define: the instance
    dictionary decides. *)
Definition getattr (self : gmap string pyval) (name : string) : result pyval :=
  match self !! name with
  | Some v => Ok v
  | None => Raise (AttributeError name)
  end.

Definition get_str (self : gmap string pyval) (name : string) : result str :=
  v <- getattr self name ;;
  match v with
  | VStr s => Ok s
  | _ => Raise TypeError
  end.

Definition get_list (self : gmap string pyval) (name : string)
    : result (list str) :=
  v <- getattr self name ;;
  match v with
  | VList l => Ok l
  | _ => Raise TypeError
  end.

Definition get_wordlist `{Resources} : list str := bip39_txt.

(** The property [wordlist]. *)
Definition wordlist `{Resources} : list str := get_wordlist.

(** The binary block of one word, or the exception of the inner
    [try]. *)
Definition word_block `{Resources} (word : str) : result str :=
  match list_index word wordlist with
  | Ok index => Ok (zfill 11 (bin_str index))
  | Raise (Builtin ValueError) =>
      Raise (InvalidSeedException
               (Msg (str_of "Word '" ++ word ++ str_of "' not in wordlist")))
  | Raise e => Raise e
  | OutOfFuel => OutOfFuel
  end.

(** The length test and the number of checksum bits. *)
Definition checksum_bits_of (len_ : Z) : result Z :=
  if len_ =? 132 then Ok 4
  else if len_ =? 165 then Ok 5
  else if len_ =? 198 then Ok 6
  else if len_ =? 231 then Ok 7
  else if len_ =? 264 then Ok 8
  else Raise (InvalidSeedException (Msg (str_of "Invalid mnemonic length"))).

(** The statements after the length test: the checksum read from the
    mnemonic against the one computed from its entropy. *)
Definition validate_entropy `{Hashlib} (bin_mnemonic : str)
    (checksum_bits : Z) : result bool :=
  let checksum := py_slice bin_mnemonic (Some (- checksum_bits)) None in
  let entropy_bits := py_slice bin_mnemonic None (Some (- checksum_bits)) in
  if negb (Z.of_nat (length entropy_bits) mod 8 =? 0) then
    Raise (InvalidSeedException (Msg (str_of "Invalid entropy length")))
  else
    entropy_int <- int_base2 entropy_bits ;;
    entropy_bytes <-
      int_to_bytes entropy_int (Z.to_nat (Z.of_nat (length entropy_bits) / 8)) ;;
    let hash_bytes := hashlib_sha256 entropy_bytes in
    let hash_int := int_from_bytes hash_bytes in
    let computed_checksum :=
      py_slice (zfill 256 (bin_str hash_int)) None (Some checksum_bits) in
    if decide (checksum = computed_checksum) then Ok true
    else Raise (InvalidSeedException
                  (Msg (str_of "Checksum validation failed"))).

(** The body of the outer [try] of [_validate_mnemonic]. *)
Definition validate_body `{Hashlib} `{Resources} (mnemonic : list str)
    : result bool :=
  list_index_bi <- mapM word_block mnemonic ;;
  let bin_mnemonic := concat list_index_bi in
  let len_ := Z.of_nat (length bin_mnemonic) in
  checksum_bits <- checksum_bits_of len_ ;;
  validate_entropy bin_mnemonic checksum_bits.

(** The two handlers: [InvalidSeedException] is raised again, any other
    exception is wrapped. *)
Definition reraise {A} (r : result A) : result A :=
  match r with
  | Raise (Builtin e) => Raise (InvalidSeedException (ValidationError e))
  | _ => r
  end.

Definition _validate_mnemonic `{Hashlib} `{Resources}
    (self : gmap string pyval) : result bool :=
  reraise (mnemonic <- get_list self "_mnemonic" ;; validate_body mnemonic).

Definition __init__ `{Hashlib} `{Resources} (mnemonic : list str)
    : result (gmap string pyval) :=
  match mnemonic with
  | [] =>
      Raise (PlainException
               (str_of "Must initialize a Seed with a mnemonic List[str]"))
  | _ =>
      let self : gmap string pyval :=
        <["fingerprint" := VStr []]>
          (<["xpub" := VStr []]>
             (<["xpriv" := VStr []]>
                (<["_passphrase" := VStr []]>
                   (<["_mnemonic" := VList mnemonic]> ∅)))) in
      _ <- _validate_mnemonic self ;;
      Ok self
  end.

(** The property [mnemonic_str]. *)
Definition mnemonic_str (self : gmap string pyval) : result str :=
  l <- get_list self "_mnemonic" ;; Ok (py_join [32] l).

(** The property [passphrase]. *)
Definition passphrase (self : gmap string pyval) : result str :=
  get_str self "_passphrase".

Definition set_passphrase (self : gmap string pyval) (passphrase : str)
    : gmap string pyval :=
  <["_passphrase" := VStr passphrase]> self.

(** [generate_seed] assigns three attributes in turn; the instance it
    leaves behind is returned next to the outcome, so that an exception
    after the first assignments keeps them. *)
Definition generate_seed `{Hashlib} `{Ecdsa} (self : gmap string pyval)
    : gmap string pyval * result unit :=
  match (m <- mnemonic_str self ;; p <- passphrase self ;;
         hexa_seed <- BitcoinFunctions.seed_generator m p ;;
         a <- BitcoinFunctions.derivation_m_44_145_0 hexa_seed ;;
         Ok (hexa_seed, a)) with
  | Ok (hexa_seed, a) =>
      let self :=
        <["xpriv" := VStr (BitcoinFunctions.xpriv_encode
                             (BitcoinFunctions.depth a)
                             (BitcoinFunctions.father_fingerprint a)
                             (BitcoinFunctions.child_index a)
                             (BitcoinFunctions.account_chain_code a)
                             (BitcoinFunctions.account_key a))]> self in
      let self :=
        <["xpub" := VStr (BitcoinFunctions.xpub_encode
                            (BitcoinFunctions.depth a)
                            (BitcoinFunctions.father_fingerprint a)
                            (BitcoinFunctions.child_index a)
                            (BitcoinFunctions.account_chain_code a)
                            (BitcoinFunctions.account_public_key a))]> self in
      match BitcoinFunctions.fingerprint_hex hexa_seed with
      | Ok fp => (<["fingerprint" := VStr fp]> self, Ok tt)
      | Raise e => (self, Raise e)
      | OutOfFuel => (self, OutOfFuel)
      end
  | Raise e => (self, Raise e)
  | OutOfFuel => (self, OutOfFuel)
  end.

(** The property [mnemonic_list]. *)
Definition mnemonic_list (self : gmap string pyval) : result (list str) :=
  get_list self "_mnemonic".

(** The property [wordlist_language_code]. *)
Definition wordlist_language_code (self : gmap string pyval) : result pyval :=
  getattr self "_wordlist_language_code".

(** The property [has_passphrase]. *)
Definition has_passphrase (self : gmap string pyval) : result bool :=
  p <- getattr self "_passphrase" ;; Ok (negb (bool_decide (p = VStr []))).

Definition get_fingerprint (self : gmap string pyval) : result str :=
  get_str self "fingerprint".

Definition __eq__ (self : gmap string pyval) (other : pyobj) : result bool :=
  match other with
  | SeedInstance other =>
      a <- getattr self "seed_bytes" ;;
      b <- getattr other "seed_bytes" ;;
      Ok (bool_decide (a = b))
  | OtherObject _ => Ok false
  end.

(** The instances a program can hold: built by the constructor, then
    changed by the two methods that assign attributes. *)
Inductive reachable `{Hashlib} `{Ecdsa} `{Resources}
    : gmap string pyval -> Prop :=
| reach_init mnemonic self :
    __init__ mnemonic = Ok self -> reachable self
| reach_set_passphrase self p :
    reachable self -> reachable (set_passphrase self p)
| reach_generate_seed self :
    reachable self -> reachable (fst (generate_seed self)).

End Seed.

(** ** seed_storage.py *)

Module SeedStorage.

(** The pending mnemonic, whose slots are [None] until a word is
    entered, and the seed made of it.  A method that raises leaves the
    storage as it was: every assignment of the class comes after the
    last statement that can raise. *)
Record t : Type := {
  _mnemonic : list (option str);
  seed : option (gmap string Seed.pyval)
}.

Definition __init__ : t :=
  {| _mnemonic := repeat None 12; seed := None |}.

(** The property [mnemonic]: a copy of the list. *)
Definition mnemonic (self : t) : list (option str) := _mnemonic self.

(** The property [mnemonic_length]. *)
Definition mnemonic_length (self : t) : Z :=
  Z.of_nat (length (_mnemonic self)).

(** The assignment [self._mnemonic[index] = word] accepts the negative
    indices down to [-len] and raises [IndexError] below. *)
Definition update_mnemonic (self : t) (word : option str) (index : Z)
    : result t :=
  let len := Z.of_nat (length (_mnemonic self)) in
  if index >=? len then
    Raise (PlainException
             (str_of "index " ++ dec_str index ++ str_of " is too high"))
  else
    let j := if index <? 0 then len + index else index in
    if j <? 0 then Raise IndexError
    else Ok {| _mnemonic := <[Z.to_nat j := word]> (_mnemonic self);
               seed := seed self |}.

Definition get_mnemonic_word (self : t) (index : Z) : result (option str) :=
  if index <? Z.of_nat (length (_mnemonic self)) then
    py_index (_mnemonic self) index
  else Ok None.

Definition discard_mnemonic (self : t) : t :=
  {| _mnemonic := repeat None 12; seed := seed self |}.

(** The words before the first empty slot, and whether there is an
    empty slot. *)
Fixpoint entered (l : list (option str)) : list str * bool :=
  match l with
  | [] => ([], false)
  | Some w :: r => let '(ws, b) := entered r in (w :: ws, b)
  | None :: _ => ([], true)
  end.

(** [Seed(mnemonic=...)] for a list that may have empty slots.  The
    loop of [_validate_mnemonic] meets the words in turn; at [None] the
    call [self.wordlist.index(None)] raises [ValueError], and the
    handler formats the word as ['None']. *)
Definition Seed_of `{Hashlib} `{Resources} (mnemonic : list (option str))
    : result (gmap string Seed.pyval) :=
  match entered mnemonic with
  | (words, false) => Seed.__init__ words
  | (words, true) =>
      Seed.reraise
        (_ <- mapM Seed.word_block words ;;
         Raise (InvalidSeedException
                  (Msg (str_of "Word 'None' not in wordlist"))))
  end.

Definition convert_mnemonic_to_seed `{Hashlib} `{Resources} (self : t)
    : result t :=
  s <- Seed_of (_mnemonic self) ;;
  Ok (discard_mnemonic {| _mnemonic := _mnemonic self; seed := Some s |}).

Definition get_seed (self : t) : result (gmap string Seed.pyval) :=
  match seed self with
  | None =>
      Raise (InvalidSeedException
               (Msg (str_of "Seed has not been initialized")))
  | Some s => Ok s
  end.

(** The seed is returned and not kept: [self.seed] is not assigned. *)
Definition get_generated_seed `{Hashlib} `{Ecdsa} `{Resources} (self : t)
    : result (gmap string Seed.pyval) :=
  match _mnemonic self with
  | [] =>
      Raise (InvalidSeedException
               (Msg (str_of "Mnemonic has not been initialized")))
  | _ =>
      mnemonic_seed <- Seed_of (_mnemonic self) ;;
      let '(mnemonic_seed, r) := Seed.generate_seed mnemonic_seed in
      _ <- r ;; Ok mnemonic_seed
  end.

Definition set_mnemonic_length (self : t) (length : Z) : result t :=
  if existsb (Z.eqb length) [12; 15; 18; 20; 21; 24; 33] then
    Ok {| _mnemonic := repeat None (Z.to_nat length); seed := seed self |}
  else Raise ValueError.

(** The storages a program can reach through the methods of the class:
    the constructor, then the methods that assign [_mnemonic] or
    [seed]. *)
Inductive reachable `{Hashlib} `{Resources} : t -> Prop :=
| reach_init : reachable __init__
| reach_update self word index self' :
    reachable self -> update_mnemonic self word index = Ok self' ->
    reachable self'
| reach_convert self self' :
    reachable self -> convert_mnemonic_to_seed self = Ok self' ->
    reachable self'
| reach_discard self :
    reachable self -> reachable (discard_mnemonic self)
| reach_set_length self length self' :
    reachable self -> set_mnemonic_length self length = Ok self' ->
    reachable self'.

End SeedStorage.

(** ** Notions used by the statements *)

(** Every digit lies in [0, B). *)
Definition in_base (B : Z) (l : list Z) : Prop :=
  Forall (fun d => 0 <= d < B) l.

(** A digit string without leading zero. *)
Definition canonical (B : Z) (l : list Z) : Prop :=
  in_base B l /\ head l <> Some 0.

(** The four bytes of a 32-bit value, most significant first. *)
Definition be32 (n : Z) : list Z :=
  [Z.land (Z.shiftr n 24) 255; Z.land (Z.shiftr n 16) 255;
   Z.land (Z.shiftr n 8) 255; Z.land n 255].

(** The state of the outer loop of [convert_bits] once the values [l]
    have been read. *)
Definition state_of (f t : Z) (l : list Z) : Z * Z * list Z :=
  let N := from_digits (2 ^ f) l in
  let total := f * Z.of_nat (length l) in
  (N, total mod t,
   be_digits (2 ^ t) (Z.to_nat (total / t)) (N / 2 ^ (total mod t))).

(** The character of a five-bit value. *)
Definition charset_char (d : Z) : Z :=
  nth (Z.to_nat d) BitcoinFunctions.CHARSET 0.

(** Reading a CashAddr body back: the position of each character in
    [CHARSET]. *)
Definition decode_base32 (s : str) : result (list Z) :=
  mapM (fun c => match find_char c BitcoinFunctions.CHARSET with
                 | Some d => Ok d
                 | None => Raise ValueError
                 end) s.

(** Reading a legacy address back: the 25 bytes under the Base58 text. *)
Definition legacy_decode (address : str) : result (list Z) :=
  b58decode address.

(** Reading a CashAddr address back: the characters after the 12 of
    ["bitcoincash:"], without the eight checksum groups, regrouped to
    bytes. *)
Definition cashaddr_decode (address : str) : result (list Z) :=
  values <- decode_base32 (drop 12 address) ;;
  BitcoinFunctions.convert_bits (py_slice values None (Some (-8))) 5 8 false.



(** A word as [load_txt] can give it: not empty, and without white
    space inside. *)
Definition plain_word (w : list Z) : Prop :=
  w <> [] /\ Forall (fun c => is_space c = false) w.

(** The word at a position of the word list. *)
Definition word_at `{Resources} (i : Z) : list Z :=
  nth (Z.to_nat i) bip39_txt [].

(** A code point that UTF-8 does not encode. *)
Definition surrogate (c : Z) : Prop := 0xD800 <= c <= 0xDFFF.


(** * Reference instances of the library interfaces *)

Module Reference.

(** ** SHA-2 (FIPS 180-4), for 32-bit and 64-bit words *)

Record sha2_params : Type := {
  wbits : Z;
  round_constants : list Z;
  initial_hash : list Z;
  big_sigma0 : Z * Z * Z;
  big_sigma1 : Z * Z * Z;
  small_sigma0 : Z * Z * Z;
  small_sigma1 : Z * Z * Z
}.

(** The constants are the fractional parts of roots of the first primes:
    of cube roots for the round constants, of square roots for the
    initial hash value. *)
Definition is_prime (n : Z) : bool :=
  forallb (fun d => negb (n mod Z.of_nat d =? 0)) (seq 2 (Z.to_nat n - 2)).

Definition primes_below (bound : nat) : list Z :=
  List.filter is_prime (map Z.of_nat (seq 2 (bound - 2))).

(** The greatest [r' >= r], built from the [i] low bits, whose cube is at
    most [n]. *)
Fixpoint cube_root_bits (i : nat) (n r : Z) : Z :=
  match i with
  | O => r
  | S k =>
      let r' := r + 2 ^ Z.of_nat k in
      cube_root_bits k n (if r' * r' * r' <=? n then r' else r)
  end.

Definition frac_cbrt (w p : Z) : Z :=
  cube_root_bits (Z.to_nat (w + 4)) (p * 2 ^ (3 * w)) 0 mod 2 ^ w.

Definition frac_sqrt (w p : Z) : Z := Z.sqrt (p * 2 ^ (2 * w)) mod 2 ^ w.

Definition sha256_params : sha2_params := Eval vm_compute in {|
  wbits := 32;
  round_constants := map (frac_cbrt 32) (take 64 (primes_below 312));
  initial_hash := map (frac_sqrt 32) (take 8 (primes_below 20));
  big_sigma0 := (2, 13, 22);
  big_sigma1 := (6, 11, 25);
  small_sigma0 := (7, 18, 3);
  small_sigma1 := (17, 19, 10)
|}.

Definition sha512_params : sha2_params := Eval vm_compute in {|
  wbits := 64;
  round_constants := map (frac_cbrt 64) (take 80 (primes_below 410));
  initial_hash := map (frac_sqrt 64) (take 8 (primes_below 20));
  big_sigma0 := (28, 34, 39);
  big_sigma1 := (14, 18, 41);
  small_sigma0 := (1, 8, 7);
  small_sigma1 := (19, 61, 6)
|}.

Definition rotr (w n x : Z) : Z :=
  Z.lor (Z.shiftr x n) (Z.land (Z.shiftl x (w - n)) (Z.ones w)).

Definition rotl (w n x : Z) : Z := rotr w (w - n) x.

Definition big_sigma (w : Z) (r : Z * Z * Z) (x : Z) : Z :=
  let '(a, b, c) := r in
  Z.lxor (Z.lxor (rotr w a x) (rotr w b x)) (rotr w c x).

Definition small_sigma (w : Z) (r : Z * Z * Z) (x : Z) : Z :=
  let '(a, b, c) := r in
  Z.lxor (Z.lxor (rotr w a x) (rotr w b x)) (Z.shiftr x c).

(** The message schedule, latest word first. *)
Fixpoint schedule (p : sha2_params) (n : nat) (ws : list Z) : list Z :=
  match n with
  | O => ws
  | S k =>
      let x := (small_sigma (wbits p) (small_sigma1 p) (nth 1 ws 0)
                + nth 6 ws 0
                + small_sigma (wbits p) (small_sigma0 p) (nth 14 ws 0)
                + nth 15 ws 0) mod 2 ^ wbits p in
      schedule p k (x :: ws)
  end.

Record state8 : Type := {
  sa : Z; sb : Z; sc : Z; sd : Z; se : Z; sf : Z; sg : Z; sh : Z
}.

Definition state8_of (l : list Z) : state8 :=
  {| sa := nth 0 l 0; sb := nth 1 l 0; sc := nth 2 l 0; sd := nth 3 l 0;
     se := nth 4 l 0; sf := nth 5 l 0; sg := nth 6 l 0; sh := nth 7 l 0 |}.

Definition state8_add (w : Z) (x y : state8) : state8 :=
  {| sa := (sa x + sa y) mod 2 ^ w; sb := (sb x + sb y) mod 2 ^ w;
     sc := (sc x + sc y) mod 2 ^ w; sd := (sd x + sd y) mod 2 ^ w;
     se := (se x + se y) mod 2 ^ w; sf := (sf x + sf y) mod 2 ^ w;
     sg := (sg x + sg y) mod 2 ^ w; sh := (sh x + sh y) mod 2 ^ w |}.

Definition sha2_round (p : sha2_params) (s : state8) (kw : Z * Z) : state8 :=
  let w := wbits p in
  let ch := Z.lxor (Z.land (se s) (sf s)) (Z.ldiff (sg s) (se s)) in
  let maj := Z.lxor (Z.lxor (Z.land (sa s) (sb s)) (Z.land (sa s) (sc s)))
                    (Z.land (sb s) (sc s)) in
  let t1 := sh s + big_sigma w (big_sigma1 p) (se s) + ch + fst kw + snd kw in
  let t2 := big_sigma w (big_sigma0 p) (sa s) + maj in
  {| sa := (t1 + t2) mod 2 ^ w; sb := sa s; sc := sb s; sd := sc s;
     se := (sd s + t1) mod 2 ^ w; sf := se s; sg := sf s; sh := sg s |}.

(** One block of 16 words. *)
Definition sha2_compress (p : sha2_params) (s : state8) (block : list Z)
    : state8 :=
  let ws := rev (schedule p (length (round_constants p) - 16) (rev block)) in
  state8_add (wbits p) s
    (fold_left (sha2_round p) (combine (round_constants p) ws) s).

(** [n] consecutive groups of [size] elements. *)
Fixpoint chunks {A} (n size : nat) (l : list A) : list (list A) :=
  match n with
  | O => []
  | S k => take size l :: chunks k size (drop size l)
  end.

Definition words_of (wbytes : nat) (block : list Z) : list Z :=
  map (from_digits 256) (chunks (length block / wbytes) wbytes block).

(** Padding with a big-endian bit count of [2 * wbytes] bytes. *)
Definition sha2_pad (wbytes : nat) (msg : list Z) : list Z :=
  let block := (16 * wbytes)%nat in
  let used := (length msg + 1 + 2 * wbytes)%nat in
  let zeros := ((block - used mod block) mod block)%nat in
  msg ++ [0x80] ++ repeat 0 zeros
    ++ be_bytes (2 * wbytes) (8 * Z.of_nat (length msg)).

Definition sha2_final (p : sha2_params) (msg : list Z) : state8 :=
  let wbytes := Z.to_nat (wbits p / 8) in
  let padded := sha2_pad wbytes msg in
  let blocks := chunks (length padded / (16 * wbytes)) (16 * wbytes) padded in
  fold_left (fun s b => sha2_compress p s (words_of wbytes b)) blocks
    (state8_of (initial_hash p)).

Definition state8_bytes (wbytes : nat) (s : state8) : list Z :=
  be_bytes wbytes (sa s) ++ be_bytes wbytes (sb s) ++ be_bytes wbytes (sc s)
    ++ be_bytes wbytes (sd s) ++ be_bytes wbytes (se s)
    ++ be_bytes wbytes (sf s) ++ be_bytes wbytes (sg s)
    ++ be_bytes wbytes (sh s).

Definition sha256 (msg : list Z) : list Z :=
  state8_bytes 4 (sha2_final sha256_params msg).

Definition sha512 (msg : list Z) : list Z :=
  state8_bytes 8 (sha2_final sha512_params msg).

(** ** HMAC (RFC 2104) and PBKDF2 (RFC 8018) with SHA-512 *)

Definition xor_bytes (a b : list Z) : list Z :=
  map (fun xy => Z.lxor (fst xy) (snd xy)) (combine a b).

Definition hmac_sha512 (key data : list Z) : list Z :=
  let key := if (128 <? length key)%nat then sha512 key else key in
  let key := key ++ repeat 0 (128 - length key) in
  sha512 (xor_bytes key (repeat 0x5c 128)
            ++ sha512 (xor_bytes key (repeat 0x36 128) ++ data)).

(** [U_1 xor ... xor U_c], from [u = U_j] and the sum so far. *)
Fixpoint pbkdf2_rounds (password : list Z) (n : nat) (u acc : list Z)
    : list Z :=
  match n with
  | O => acc
  | S k =>
      let u' := hmac_sha512 password u in
      pbkdf2_rounds password k u' (xor_bytes acc u')
  end.

Definition pbkdf2_block (password salt : list Z) (iterations : Z) (i : Z)
    : list Z :=
  let u1 := hmac_sha512 password (salt ++ be_bytes 4 i) in
  pbkdf2_rounds password (Z.to_nat (iterations - 1)) u1 u1.

Definition pbkdf2 (password salt : list Z) (iterations dklen : Z) : list Z :=
  let blocks := Z.to_nat ((dklen + 63) / 64) in
  take (Z.to_nat dklen)
    (flat_map (fun i => pbkdf2_block password salt iterations (Z.of_nat i))
       (seq 1 blocks)).

(** ** RIPEMD-160 *)

Definition rmd_r : list nat := [
  0; 1; 2; 3; 4; 5; 6; 7; 8; 9; 10; 11; 12; 13; 14; 15;
  7; 4; 13; 1; 10; 6; 15; 3; 12; 0; 9; 5; 2; 14; 11; 8;
  3; 10; 14; 4; 9; 15; 8; 1; 2; 7; 0; 6; 13; 11; 5; 12;
  1; 9; 11; 10; 0; 8; 12; 4; 13; 3; 7; 15; 14; 5; 6; 2;
  4; 0; 5; 9; 7; 12; 2; 10; 14; 1; 3; 8; 11; 6; 15; 13]%nat.

Definition rmd_r' : list nat := [
  5; 14; 7; 0; 9; 2; 11; 4; 13; 6; 15; 8; 1; 10; 3; 12;
  6; 11; 3; 7; 0; 13; 5; 10; 14; 15; 8; 12; 4; 9; 1; 2;
  15; 5; 1; 3; 7; 14; 6; 9; 11; 8; 12; 2; 10; 0; 4; 13;
  8; 6; 4; 1; 3; 11; 15; 0; 5; 12; 2; 13; 9; 7; 10; 14;
  12; 15; 10; 4; 1; 5; 8; 7; 6; 2; 13; 14; 0; 3; 9; 11]%nat.

Definition rmd_s : list Z := [
  11; 14; 15; 12; 5; 8; 7; 9; 11; 13; 14; 15; 6; 7; 9; 8;
  7; 6; 8; 13; 11; 9; 7; 15; 7; 12; 15; 9; 11; 7; 13; 12;
  11; 13; 6; 7; 14; 9; 13; 15; 14; 8; 13; 6; 5; 12; 7; 5;
  11; 12; 14; 15; 14; 15; 9; 8; 9; 14; 5; 6; 8; 6; 5; 12;
  9; 15; 5; 11; 6; 8; 13; 12; 5; 12; 13; 14; 11; 8; 5; 6].

Definition rmd_s' : list Z := [
  8; 9; 9; 11; 13; 15; 15; 5; 7; 7; 8; 11; 14; 14; 12; 6;
  9; 13; 15; 7; 12; 8; 9; 11; 7; 7; 12; 7; 6; 15; 13; 11;
  9; 7; 15; 11; 8; 6; 6; 14; 12; 13; 5; 14; 13; 13; 7; 5;
  15; 5; 8; 11; 14; 14; 6; 14; 6; 9; 12; 9; 12; 5; 15; 8;
  8; 5; 12; 9; 12; 5; 14; 6; 8; 13; 6; 5; 15; 13; 11; 11].

Definition rmd_K : list Z :=
  [0x00000000; 0x5A827999; 0x6ED9EBA1; 0x8F1BBCDC; 0xA953FD4E].

Definition rmd_K' : list Z :=
  [0x50A28BE6; 0x5C4DD124; 0x6D703EF3; 0x7A6D76E9; 0x00000000].

Definition not32 (x : Z) : Z := Z.lxor x 0xFFFFFFFF.

(** The five round functions, by round group. *)
Definition rmd_f (group : nat) (x y z : Z) : Z :=
  match group with
  | 0%nat => Z.lxor (Z.lxor x y) z
  | 1%nat => Z.lor (Z.land x y) (Z.land (not32 x) z)
  | 2%nat => Z.lxor (Z.lor x (not32 y)) z
  | 3%nat => Z.lor (Z.land x z) (Z.land y (not32 z))
  | _ => Z.lxor x (Z.lor y (not32 z))
  end.

Record state5 : Type := { ra : Z; rb : Z; rc : Z; rd : Z; re : Z }.

Definition rmd_step (f : Z) (x k s : Z) (st : state5) : state5 :=
  let t := (rotl 32 s ((ra st + f + x + k) mod 2 ^ 32) + re st) mod 2 ^ 32 in
  {| ra := re st; rb := t; rc := rb st; rd := rotl 32 10 (rc st);
     re := rd st |}.

Definition rmd_line (left : bool) (block : list Z) (st : state5) : state5 :=
  fold_left
    (fun st j =>
       let g := (j / 16)%nat in
       if left then
         rmd_step (rmd_f g (rb st) (rc st) (rd st))
           (nth (nth j rmd_r 0%nat) block 0) (nth g rmd_K 0) (nth j rmd_s 0) st
       else
         rmd_step (rmd_f (4 - g) (rb st) (rc st) (rd st))
           (nth (nth j rmd_r' 0%nat) block 0) (nth g rmd_K' 0)
           (nth j rmd_s' 0) st)
    (seq 0 80) st.

Definition rmd_compress (h : state5) (block : list Z) : state5 :=
  let l := rmd_line true block h in
  let r := rmd_line false block h in
  {| ra := (rb h + rc l + rd r) mod 2 ^ 32;
     rb := (rc h + rd l + re r) mod 2 ^ 32;
     rc := (rd h + re l + ra r) mod 2 ^ 32;
     rd := (re h + ra l + rb r) mod 2 ^ 32;
     re := (ra h + rb l + rc r) mod 2 ^ 32 |}.

(** Little-endian words and length. *)
Definition le_bytes (len : nat) (n : Z) : list Z := rev (be_bytes len n).

Definition rmd_pad (msg : list Z) : list Z :=
  let used := (length msg + 1 + 8)%nat in
  let zeros := ((64 - used mod 64) mod 64)%nat in
  msg ++ [0x80] ++ repeat 0 zeros ++ le_bytes 8 (8 * Z.of_nat (length msg)).

Definition le_words (block : list Z) : list Z :=
  map (fun g => from_digits 256 (rev g)) (chunks (length block / 4) 4 block).

Definition ripemd160 (msg : list Z) : list Z :=
  let padded := rmd_pad msg in
  let blocks := chunks (length padded / 64) 64 padded in
  let h := fold_left (fun s b => rmd_compress s (le_words b)) blocks
             {| ra := 0x67452301; rb := 0xEFCDAB89; rc := 0x98BADCFE;
                rd := 0x10325476; re := 0xC3D2E1F0 |} in
  le_bytes 4 (ra h) ++ le_bytes 4 (rb h) ++ le_bytes 4 (rc h)
    ++ le_bytes 4 (rd h) ++ le_bytes 4 (re h).

(** ** secp256k1

    The field arithmetic runs on [bigZ], whose machine words make a
    scalar multiplication a matter of seconds. *)

Definition field_p : Z := 2 ^ 256 - 2 ^ 32 - 977.

Definition Gx : Z :=
  0x79BE667EF9DCBBAC55A06295CE870B07029BFCDB2DCE28D959F2815B16F81798.
Definition Gy : Z :=
  0x483ADA7726A3C4655DA4FBFC0E1108A8FD17B448A68554199C47D08FFB10D4B8.

Definition fmul (a b : bigZ) : bigZ :=
  BigZ.modulo (BigZ.mul a b) (BigZ.of_Z field_p).

Definition fsub (a b : bigZ) : bigZ :=
  BigZ.modulo (BigZ.sub a b) (BigZ.of_Z field_p).

(** [b ^ e mod p] by squaring, on the binary digits of [e]. *)
Fixpoint pow_mod_pos (b : bigZ) (e : positive) : bigZ :=
  match e with
  | xH => BigZ.modulo b (BigZ.of_Z field_p)
  | xO e' => let r := pow_mod_pos b e' in fmul r r
  | xI e' => let r := pow_mod_pos b e' in fmul (fmul r r) b
  end.

Definition pow_mod (b : bigZ) (e : Z) : bigZ :=
  match e with
  | Zpos e' => pow_mod_pos b e'
  | _ => BigZ.one
  end.

Definition inv_p (x : bigZ) : bigZ := pow_mod x (field_p - 2).

(** A point of the curve, or the point at infinity. *)
Inductive ec_point : Type :=
| Infinity
| Affine (x y : bigZ).

Definition ec_double (P : ec_point) : ec_point :=
  match P with
  | Infinity => Infinity
  | Affine x y =>
      if BigZ.eqb y BigZ.zero then Infinity
      else
        let l := fmul (fmul (BigZ.of_Z 3) (fmul x x))
                      (inv_p (fmul (BigZ.of_Z 2) y)) in
        let x3 := fsub (fmul l l) (fmul (BigZ.of_Z 2) x) in
        Affine x3 (fsub (fmul l (fsub x x3)) y)
  end.

Definition ec_add (P Q : ec_point) : ec_point :=
  match P, Q with
  | Infinity, _ => Q
  | _, Infinity => P
  | Affine x1 y1, Affine x2 y2 =>
      if BigZ.eqb x1 x2 then
        if BigZ.eqb y1 y2 then ec_double P else Infinity
      else
        let l := fmul (fsub y2 y1) (inv_p (fsub x2 x1)) in
        let x3 := fsub (fsub (fmul l l) x1) x2 in
        Affine x3 (fsub (fmul l (fsub x1 x3)) y1)
  end.

(** Scalar multiplication runs in Jacobian coordinates [(X, Y, Z)],
    which stand for the point [(X / Z^2, Y / Z^3)], or for the point at
    infinity when [Z] is zero: one inversion at the end instead of one
    for each step. *)
Definition fadd (a b : bigZ) : bigZ :=
  BigZ.modulo (BigZ.add a b) (BigZ.of_Z field_p).

Definition jac_double (P : bigZ * bigZ * bigZ) : bigZ * bigZ * bigZ :=
  let '(x, y, z) := P in
  let a := fmul x x in
  let b := fmul y y in
  let c := fmul b b in
  let xb := fadd x b in
  let d := fmul (BigZ.of_Z 2) (fsub (fsub (fmul xb xb) a) c) in
  let e := fmul (BigZ.of_Z 3) a in
  let x3 := fsub (fmul e e) (fmul (BigZ.of_Z 2) d) in
  (x3,
   fsub (fmul e (fsub d x3)) (fmul (BigZ.of_Z 8) c),
   fmul (BigZ.of_Z 2) (fmul y z)).

Definition jac_add (P Q : bigZ * bigZ * bigZ) : bigZ * bigZ * bigZ :=
  let '(x1, y1, z1) := P in
  let '(x2, y2, z2) := Q in
  if BigZ.eqb z1 BigZ.zero then Q
  else if BigZ.eqb z2 BigZ.zero then P
  else
    let z1z1 := fmul z1 z1 in
    let z2z2 := fmul z2 z2 in
    let u1 := fmul x1 z2z2 in
    let u2 := fmul x2 z1z1 in
    let s1 := fmul y1 (fmul z2 z2z2) in
    let s2 := fmul y2 (fmul z1 z1z1) in
    if BigZ.eqb u1 u2 then
      if BigZ.eqb s1 s2 then jac_double P
      else (BigZ.one, BigZ.one, BigZ.zero)
    else
      let h := fsub u2 u1 in
      let r := fsub s2 s1 in
      let h2 := fmul h h in
      let h3 := fmul h h2 in
      let v := fmul u1 h2 in
      let x3 := fsub (fsub (fmul r r) h3) (fmul (BigZ.of_Z 2) v) in
      (x3, fsub (fmul r (fsub v x3)) (fmul s1 h3), fmul h (fmul z1 z2)).

Fixpoint jac_mul_pos (k : positive) (P : bigZ * bigZ * bigZ)
    : bigZ * bigZ * bigZ :=
  match k with
  | xH => P
  | xO k' => jac_double (jac_mul_pos k' P)
  | xI k' => jac_add (jac_double (jac_mul_pos k' P)) P
  end.

Definition jac_to_affine (P : bigZ * bigZ * bigZ) : ec_point :=
  let '(x, y, z) := P in
  if BigZ.eqb z BigZ.zero then Infinity
  else
    let zi := inv_p z in
    let zi2 := fmul zi zi in
    Affine (fmul x zi2) (fmul y (fmul zi zi2)).

Definition ec_mul (k : Z) (P : ec_point) : ec_point :=
  match k mod SECP256k1_order, P with
  | Zpos k', Affine x y => jac_to_affine (jac_mul_pos k' (x, y, BigZ.one))
  | _, _ => Infinity
  end.

Definition generator : ec_point := Affine (BigZ.of_Z Gx) (BigZ.of_Z Gy).

Definition on_curve (x y : Z) : bool :=
  (0 <=? x) && (x <? field_p) && (0 <=? y) && (y <? field_p)
  && ((y * y - (x * x * x + 7)) mod field_p =? 0).

Definition point_of (x y : Z) : result ec_point :=
  if on_curve x y then Ok (Affine (BigZ.of_Z x) (BigZ.of_Z y))
  else Raise MalformedPointError.

(** The compressed encoding of a valid point. *)
Definition compress (P : ec_point) : result (list Z) :=
  match P with
  | Infinity => Raise MalformedPointError
  | Affine x y =>
      let x := BigZ.to_Z x in
      let y := BigZ.to_Z y in
      if on_curve x y
      then Ok ((if Z.even y then 2 else 3) :: be_bytes 32 x)
      else Raise MalformedPointError
  end.

(** Compressed (33 bytes), uncompressed (65 bytes) and raw (64 bytes)
    encodings of a point. *)
Definition decode_point (b : list Z) : result ec_point :=
  match b with
  | prefix :: rest =>
      if (length b =? 33)%nat && ((prefix =? 2) || (prefix =? 3)) then
        let x := from_digits 256 rest in
        let y2 := (x * x * x + 7) mod field_p in
        let y := BigZ.to_Z (pow_mod (BigZ.of_Z y2) ((field_p + 1) / 4)) in
        let y := if eqb (Z.even y) (prefix =? 2) then y else field_p - y in
        point_of x y
      else if (length b =? 65)%nat && (prefix =? 4) then
        point_of (from_digits 256 (take 32 rest))
                 (from_digits 256 (drop 32 rest))
      else if (length b =? 64)%nat then
        point_of (from_digits 256 (take 32 b)) (from_digits 256 (drop 32 b))
      else Raise MalformedPointError
  | [] => Raise MalformedPointError
  end.

Definition public_of_secret (k : list Z) : result (list Z) :=
  let e := from_digits 256 k in
  if (length k =? 32)%nat && (1 <=? e) && (e <? SECP256k1_order)
  then compress (ec_mul e generator)
  else Raise MalformedPointError.

(** ** The instances *)

Definition hashlib : Hashlib := {|
  hashlib_sha256 := sha256;
  hashlib_ripemd160 := ripemd160;
  hmac_new_sha512 := hmac_sha512;
  pbkdf2_hmac_sha512 := pbkdf2
|}.

Definition ecdsa : Ecdsa := {|
  point := ec_point;
  generator_mul := fun k => ec_mul k generator;
  point_add := ec_add;
  vk_from_string := decode_point;
  vk_from_public_point := compress;
  sk_verifying_key := public_of_secret
|}.

(** The first lines of the English word list. *)
Definition resources : Resources := {|
  bip39_txt := map str_of ["abandon"; "ability"; "able"; "about"]%string
|}.

(** Bytes written in hexadecimal. *)
Definition hex (s : string) : list Z :=
  match bytes_fromhex (str_of s) with
  | Ok b => b
  | _ => []
  end.

End Reference.

(** ** Stand-ins for the examples

    The word list resource is not among the sources, and the bytes of
    [os.urandom] are not known in advance.  The examples that need all
    of the 2048 words, or some entropy, use these. *)

(** 2048 distinct words: the word at position [i] is [i] in eleven
    binary digits, written with the letters [a] and [b]. *)
Definition numbered_words : Resources := {|
  bip39_txt :=
    map (fun i => map (fun d => 97 + d) (be_digits 2 11 (Z.of_nat i)))
        (seq 0 2048)
|}.

(** The bytes 0, 1, 2, ... *)
Definition counting_os : Os := {|
  os_urandom := fun n => map Z.of_nat (seq 0 (Z.to_nat n))
|}.

(** * Properties *)

Import BitcoinFunctions.

(** ** Digit strings *)

Lemma from_digits_fold B l a :
  fold_left (fun acc d => acc * B + d) l a
  = a * B ^ Z.of_nat (length l) + from_digits B l.
Proof.
  unfold from_digits. revert a.
  induction l as [|d l IH]; intros a; simpl.
  - lia.
  - rewrite IH, (IH (0 * B + d)).
    replace (Z.of_nat (S (length l))) with (Z.succ (Z.of_nat (length l))) by lia.
    rewrite Z.pow_succ_r by lia. ring.
Qed.

Lemma from_digits_cons B d l :
  from_digits B (d :: l) = d * B ^ Z.of_nat (length l) + from_digits B l.
Proof.
  unfold from_digits at 1. simpl. rewrite from_digits_fold. ring.
Qed.

Lemma from_digits_app B l1 l2 :
  from_digits B (l1 ++ l2)
  = from_digits B l1 * B ^ Z.of_nat (length l2) + from_digits B l2.
Proof.
  unfold from_digits at 1. rewrite fold_left_app.
  fold (from_digits B l1). apply from_digits_fold.
Qed.

Lemma from_digits_snoc B l d :
  from_digits B (l ++ [d]) = from_digits B l * B + d.
Proof. rewrite from_digits_app. simpl. unfold from_digits at 2. simpl. lia. Qed.

Lemma from_digits_bound B l :
  0 < B -> in_base B l -> 0 <= from_digits B l < B ^ Z.of_nat (length l).
Proof.
  intros HB H. induction H as [|d l Hd _ IH].
  - unfold from_digits. simpl. lia.
  - rewrite from_digits_cons.
    replace (Z.of_nat (length (d :: l))) with (Z.succ (Z.of_nat (length l)))
      by (simpl; lia).
    rewrite Z.pow_succ_r by lia.
    assert (0 < B ^ Z.of_nat (length l)) by (apply Z.pow_pos_nonneg; lia).
    nia.
Qed.

Lemma length_be_digits B len n : length (be_digits B len n) = len.
Proof.
  revert n. induction len as [|k IH]; intros n; simpl; [done|].
  rewrite length_app, IH. simpl. lia.
Qed.

Lemma be_digits_in_base B len n : 0 < B -> in_base B (be_digits B len n).
Proof.
  intros HB. revert n. induction len as [|k IH]; intros n; simpl.
  - constructor.
  - apply Forall_app. split; [apply IH|].
    constructor; [|constructor]. apply Z.mod_pos_bound. lia.
Qed.

Lemma from_be_digits B len n :
  0 < B -> from_digits B (be_digits B len n) = n mod B ^ Z.of_nat len.
Proof.
  intros HB. revert n. induction len as [|k IH]; intros n.
  - simpl. unfold from_digits. simpl. by rewrite Z.mod_1_r.
  - cbn [be_digits]. rewrite from_digits_snoc, IH.
    replace (Z.of_nat (S k)) with (Z.succ (Z.of_nat k)) by lia.
    rewrite Z.pow_succ_r by lia.
    assert (0 < B ^ Z.of_nat k) by (apply Z.pow_pos_nonneg; lia).
    rewrite Z.rem_mul_r by lia. lia.
Qed.

Lemma be_from_digits B l :
  0 < B -> in_base B l -> be_digits B (length l) (from_digits B l) = l.
Proof.
  intros HB. induction l as [|d l IH] using rev_ind; intros H; [done|].
  apply Forall_app in H as [Hl Hd]. inversion Hd as [|? ? Hd' _]; subst.
  rewrite length_app. simpl. rewrite Nat.add_1_r. cbn [be_digits].
  rewrite from_digits_snoc.
  replace ((from_digits B l * B + d) / B) with (from_digits B l).
  2:{ rewrite Z.div_add_l by lia. rewrite Z.div_small by lia. lia. }
  replace ((from_digits B l * B + d) mod B) with d.
  2:{ rewrite Z.add_comm, Z.mod_add by lia. by rewrite Z.mod_small. }
  by rewrite IH.
Qed.

Lemma be_digits_small B len n :
  0 < B -> 0 <= n < B ^ Z.of_nat len ->
  from_digits B (be_digits B len n) = n.
Proof. intros HB Hn. rewrite from_be_digits by done. by apply Z.mod_small. Qed.

(** The most significant digit first. *)
Lemma be_digits_head B len n :
  0 < B ->
  be_digits B (S len) n
  = (n / B ^ Z.of_nat len) mod B :: be_digits B len n.
Proof.
  intros HB. revert n. induction len as [|k IH]; intros n.
  - simpl. by rewrite Z.div_1_r.
  - change (be_digits B (S (S k)) n)
      with (be_digits B (S k) (n / B) ++ [n mod B]).
    rewrite IH. cbn [be_digits]. simpl. f_equal.
    replace (Z.of_nat (S k)) with (Z.succ (Z.of_nat k)) by lia.
    rewrite Z.pow_succ_r by lia.
    rewrite Z.div_div by (try apply Z.pow_pos_nonneg; lia). done.
Qed.

Lemma be_digits_app B a b n :
  0 < B ->
  be_digits B (a + b) n
  = be_digits B a (n / B ^ Z.of_nat b) ++ be_digits B b n.
Proof.
  intros HB. revert n. induction b as [|b IH]; intros n.
  - rewrite Nat.add_0_r. simpl. by rewrite Z.div_1_r, app_nil_r.
  - rewrite Nat.add_succ_r. cbn [be_digits]. rewrite IH, app_assoc.
    do 2 f_equal.
    replace (Z.of_nat (S b)) with (Z.succ (Z.of_nat b)) by lia.
    rewrite Z.pow_succ_r by lia.
    rewrite Z.div_div by (try apply Z.pow_pos_nonneg; lia). done.
Qed.

Lemma min_digits_loop_spec fuel B n out :
  2 <= B -> 0 <= n < 2 ^ Z.of_nat fuel ->
  exists ds, min_digits_loop fuel B n out = ds ++ out
             /\ canonical B ds /\ from_digits B ds = n.
Proof.
  intros HB. revert n out.
  induction fuel as [|f IH]; intros n out Hn.
  - simpl in Hn. assert (n = 0) by lia. subst.
    exists []. repeat split; try done. constructor.
  - cbn [min_digits_loop]. destruct (Z.eqb_spec n 0) as [->|Hnz].
    + exists []. repeat split; try done. constructor.
    + assert (Hdiv : 0 <= n / B < 2 ^ Z.of_nat f).
      { split; [apply Z.div_pos; lia|].
        apply Z.div_lt_upper_bound; [lia|].
        replace (Z.of_nat (S f)) with (Z.succ (Z.of_nat f)) in Hn by lia.
        rewrite Z.pow_succ_r in Hn by lia.
        assert (0 < 2 ^ Z.of_nat f) by (apply Z.pow_pos_nonneg; lia). nia. }
      destruct (IH (n / B) (n mod B :: out) Hdiv) as (ds & Heq & [Hb Hh] & Hv).
      exists (ds ++ [n mod B]). split; [by rewrite <- app_assoc|].
      assert (Hm : 0 <= n mod B < B) by (apply Z.mod_pos_bound; lia).
      split; [split|].
      * apply Forall_app. split; [done|]. constructor; [done|constructor].
      * destruct ds as [|d ds]; [|done]. simpl.
        unfold from_digits in Hv. simpl in Hv.
        intros [= Hz]. rewrite (Z.div_mod n B) in Hnz by lia. lia.
      * rewrite from_digits_snoc, Hv. rewrite (Z.div_mod n B) at 3 by lia. lia.
Qed.

Lemma log2_fuel n : 0 <= n -> n < 2 ^ Z.of_nat (S (Z.to_nat (Z.log2 n))).
Proof.
  intros Hn. destruct (Z.eq_dec n 0) as [->|]; [simpl; lia|].
  rewrite Nat2Z.inj_succ, Z2Nat.id by apply Z.log2_nonneg.
  apply Z.log2_spec. lia.
Qed.

Lemma min_digits_spec B n :
  2 <= B -> 0 <= n ->
  canonical B (min_digits B n) /\ from_digits B (min_digits B n) = n.
Proof.
  intros HB Hn. unfold min_digits.
  destruct (min_digits_loop_spec (S (Z.to_nat (Z.log2 n))) B n [] HB)
    as (ds & Heq & Hc & Hv).
  { split; [done|]. by apply log2_fuel. }
  rewrite Heq, app_nil_r. done.
Qed.

Lemma canonical_lower B l :
  2 <= B -> canonical B l -> l <> [] ->
  B ^ (Z.of_nat (length l) - 1) <= from_digits B l.
Proof.
  intros HB [Hb Hh] Hne. destruct l as [|d l]; [done|].
  inversion Hb as [|? ? Hd Hl]; subst.
  rewrite from_digits_cons. simpl length.
  replace (Z.of_nat (S (length l)) - 1) with (Z.of_nat (length l)) by lia.
  assert (d <> 0) by (intros ->; by apply Hh).
  pose proof (from_digits_bound B l ltac:(lia) Hl).
  assert (0 < B ^ Z.of_nat (length l)) by (apply Z.pow_pos_nonneg; lia).
  nia.
Qed.

Lemma canonical_length B l1 l2 :
  2 <= B -> canonical B l1 -> canonical B l2 ->
  from_digits B l1 = from_digits B l2 -> length l1 = length l2.
Proof.
  intros HB H1 H2 Heq.
  assert (Hlt : forall a b, canonical B a -> canonical B b ->
            from_digits B a = from_digits B b -> (length a <= length b)%nat).
  { intros a b Ha Hb' E.
    destruct (decide (a = [])) as [->|Hne]; [simpl; lia|].
    pose proof (canonical_lower B a HB Ha Hne) as Hlow.
    pose proof (from_digits_bound B b ltac:(lia) (proj1 Hb')) as Hup.
    destruct (decide (length a <= length b)%nat) as [|Hgt]; [done|].
    exfalso.
    assert (B ^ Z.of_nat (length b) <= B ^ (Z.of_nat (length a) - 1))
      by (apply Z.pow_le_mono_r; lia).
    lia. }
  apply Nat.le_antisymm; [by apply Hlt | by apply Hlt].
Qed.

Lemma canonical_unique B l1 l2 :
  2 <= B -> canonical B l1 -> canonical B l2 ->
  from_digits B l1 = from_digits B l2 -> l1 = l2.
Proof.
  intros HB H1 H2 Heq.
  pose proof (canonical_length B l1 l2 HB H1 H2 Heq) as Hlen.
  rewrite <- (be_from_digits B l1), <- (be_from_digits B l2)
    by (try apply H1; try apply H2; lia).
  by rewrite Hlen, Heq.
Qed.

Lemma min_digits_from_digits B l :
  2 <= B -> canonical B l -> min_digits B (from_digits B l) = l.
Proof.
  intros HB Hc.
  pose proof (from_digits_bound B l ltac:(lia) (proj1 Hc)) as Hb.
  destruct (min_digits_spec B (from_digits B l) HB ltac:(lia)) as [Hc' Hv].
  by apply (canonical_unique B).
Qed.

(** ** base58 *)

Lemma lstrip_split c l :
  exists k, l = repeat c k ++ lstrip c l /\ head (lstrip c l) <> Some c.
Proof.
  induction l as [|x l (k & Hk & Hh)].
  - exists 0%nat. done.
  - simpl. destruct (Z.eqb_spec x c) as [->|Hne].
    + exists (S k). simpl. split; [by rewrite <- Hk | done].
    + exists 0%nat. simpl. split; [done|]. by intros [=].
Qed.

Lemma lstrip_repeat c k l :
  head l <> Some c -> lstrip c (repeat c k ++ l) = l.
Proof.
  intros Hh. induction k as [|k IH]; simpl.
  - destruct l as [|x l]; [done|]. simpl.
    destruct (Z.eqb_spec x c) as [->|]; [by destruct Hh|done].
  - by rewrite Z.eqb_refl.
Qed.

Lemma alphabet_find d :
  0 <= d < 58 -> find_char (alphabet_char d) BITCOIN_ALPHABET = Some d.
Proof.
  intros Hd.
  assert (Hall : forallb (fun i =>
            match find_char (alphabet_char (Z.of_nat i)) BITCOIN_ALPHABET with
            | Some j => j =? Z.of_nat i
            | None => false
            end) (seq 0 58) = true) by (vm_compute; reflexivity).
  rewrite forallb_forall in Hall.
  specialize (Hall (Z.to_nat d)). rewrite Z2Nat.id in Hall by lia.
  assert (Hin : In (Z.to_nat d) (seq 0 58)) by (apply in_seq; lia).
  apply Hall in Hin.
  destruct (find_char (alphabet_char d) BITCOIN_ALPHABET); [|done].
  f_equal. lia.
Qed.

Lemma alphabet_props d :
  0 <= d < 58 ->
  is_ascii_space (alphabet_char d) = false
  /\ 0 <= alphabet_char d < 128
  /\ (alphabet_char d = 49 -> d = 0).
Proof.
  intros Hd.
  assert (Hall : forallb (fun i =>
            negb (is_ascii_space (alphabet_char (Z.of_nat i)))
            && (0 <=? alphabet_char (Z.of_nat i))
            && (alphabet_char (Z.of_nat i) <? 128)
            && ((negb (alphabet_char (Z.of_nat i) =? 49)) || (Z.of_nat i =? 0)))
            (seq 0 58) = true) by (vm_compute; reflexivity).
  rewrite forallb_forall in Hall.
  specialize (Hall (Z.to_nat d)). rewrite Z2Nat.id in Hall by lia.
  assert (Hin : In (Z.to_nat d) (seq 0 58)) by (apply in_seq; lia).
  apply Hall in Hin.
  repeat (apply andb_prop in Hin as [Hin ?]).
  split; [by apply negb_true_iff|]. split; [lia|].
  intros E. rewrite E in *. simpl in *. lia.
Qed.

Lemma b58decode_int_encode ds :
  in_base 58 ds ->
  b58decode_int (map alphabet_char ds) = Ok (from_digits 58 ds).
Proof.
  intros H. unfold b58decode_int.
  assert (E : mapM (fun c => match find_char c BITCOIN_ALPHABET with
                       | Some d => Ok d
                       | None => Raise ValueError
                       end) (map alphabet_char ds) = Ok ds).
  { induction H as [|d ds Hd _ IH]; [done|].
    cbn [map mapM]. rewrite alphabet_find by done. cbn [bind].
    by rewrite IH. }
  by rewrite E.
Qed.

Lemma rstrip_space_id l :
  Forall (fun c => is_ascii_space c = false) l -> rstrip_space l = l.
Proof.
  intros H. unfold rstrip_space.
  assert (E : drop_while is_ascii_space (rev l) = rev l).
  { apply Forall_rev in H. destruct H as [|x r Hx _]; [done|].
    simpl. by rewrite Hx. }
  by rewrite E, rev_involutive.
Qed.

Lemma b58encode_chars v :
  in_base 256 v ->
  Forall (fun c => is_ascii_space c = false /\ 0 <= c < 128) (b58encode v).
Proof.
  intros Hv. unfold b58encode. apply Forall_app. split.
  - apply Forall_forall. intros x Hx. apply list_elem_of_In in Hx.
    apply repeat_spec in Hx. subst. done.
  - unfold b58encode_int. apply Forall_map.
    destruct (lstrip_split 0 v) as (k & Hk & Hh).
    assert (Hb : in_base 256 (lstrip 0 v)).
    { rewrite Hk in Hv. by apply Forall_app in Hv as [_ ?]. }
    pose proof (from_digits_bound 256 _ ltac:(lia) Hb) as Hr.
    destruct (min_digits_spec 58 (int_from_bytes (lstrip 0 v)) ltac:(lia))
      as [[Hds _] _]; [unfold int_from_bytes; lia|].
    eapply Forall_impl; [exact Hds|]. intros d Hd. simpl.
    destruct (alphabet_props d Hd) as (? & ? & ?). done.
Qed.

Theorem b58decode_b58encode v :
  in_base 256 v -> b58decode (b58encode v) = Ok v.
Proof.
  intros Hv. pose proof (b58encode_chars v Hv) as Hch.
  unfold b58decode.
  rewrite rstrip_space_id
    by (eapply Forall_impl; [exact Hch|]; intros c [Hc _]; exact Hc).
  assert (Hascii : forallb (fun c => (0 <=? c) && (c <? 128)) (b58encode v) = true).
  { apply forallb_forall. intros c Hc. apply list_elem_of_In in Hc.
    rewrite Forall_forall in Hch. destruct (Hch c Hc) as [_ ?]. lia. }
  rewrite Hascii. clear Hascii Hch.
  destruct (lstrip_split 0 v) as (k & Hk & Hh).
  assert (Hb : in_base 256 (lstrip 0 v)).
  { rewrite Hk in Hv. by apply Forall_app in Hv as [_ ?]. }
  assert (Hcan : canonical 256 (lstrip 0 v)) by done.
  pose proof (from_digits_bound 256 _ ltac:(lia) Hb) as Hr.
  destruct (min_digits_spec 58 (int_from_bytes (lstrip 0 v)) ltac:(lia))
    as [[Hds Hhd] Hval]; [unfold int_from_bytes; lia|].
  assert (Hlen : (length v - length (lstrip 0 v))%nat = k).
  { rewrite Hk at 1. rewrite length_app, repeat_length. lia. }
  unfold b58encode. rewrite Hlen. unfold b58encode_int.
  set (ds := min_digits 58 (int_from_bytes (lstrip 0 v))) in *.
  rewrite lstrip_repeat.
  2:{ destruct ds as [|d ds']; [done|]. simpl. intros [= E].
      inversion Hds as [|? ? Hd _]; subst.
      destruct (alphabet_props d Hd) as (_ & _ & Hz). apply Hhd. simpl.
      f_equal. by apply Hz. }
  rewrite b58decode_int_encode by done. simpl.
  rewrite length_app, repeat_length, Nat.add_sub.
  rewrite Hval. unfold int_from_bytes.
  rewrite min_digits_from_digits by (done || lia).
  by rewrite <- Hk.
Qed.

(** ** Regrouping bits *)

Lemma land_maxv a t : 0 <= t -> Z.land a (2 ^ t - 1) = a mod 2 ^ t.
Proof.
  intros Ht. rewrite <- Z.land_ones by done. f_equal.
  rewrite Z.ones_equiv. lia.
Qed.

Lemma lor_shiftl_small a f v :
  0 <= f -> 0 <= v < 2 ^ f -> Z.lor (Z.shiftl a f) v = a * 2 ^ f + v.
Proof.
  intros Hf Hv. rewrite Z.shiftl_mul_pow2 by done.
  rewrite <- Z.lxor_lor, <- Z.add_nocarry_lxor; try done.
  all: apply Z.bits_inj'; intros i Hi; rewrite Z.land_spec, Z.bits_0.
  all: destruct (Z.lt_ge_cases i f).
  all: try (rewrite Z.mul_pow2_bits_low by lia; done).
  all: rewrite <- (Z.mod_small v (2 ^ f)) by done.
  all: rewrite Z.mod_pow2_bits_high by lia; apply andb_false_r.
Qed.

Lemma div_pow2_pow2 a x y :
  0 <= x -> 0 <= y -> a / 2 ^ x / 2 ^ y = a / 2 ^ (x + y).
Proof.
  intros Hx Hy.
  assert (0 < 2 ^ x) by (apply Z.pow_pos_nonneg; lia).
  assert (0 < 2 ^ y) by (apply Z.pow_pos_nonneg; lia).
  rewrite Z.div_div by lia. by rewrite Z.pow_add_r.
Qed.

Lemma pow2_pow t q : 0 <= t -> 0 <= q -> (2 ^ t) ^ q = 2 ^ (t * q).
Proof. intros. by rewrite Z.pow_mul_r. Qed.

Lemma drain_spec fuel acc bits t ret :
  1 <= t -> 0 <= bits -> (Z.to_nat bits <= fuel)%nat ->
  convert_bits_drain fuel acc bits t (2 ^ t - 1) ret
  = Ok (bits mod t,
        ret ++ be_digits (2 ^ t) (Z.to_nat (bits / t))
                 (acc / 2 ^ (bits mod t))).
Proof.
  intros Ht. revert bits ret.
  induction fuel as [|f IH]; intros bits ret Hb Hfuel.
  - assert (bits = 0) by lia. subst. cbn [convert_bits_drain].
    destruct (Z.geb_spec 0 t); [lia|].
    rewrite Z.mod_0_l, Z.div_0_l by lia. simpl. by rewrite app_nil_r.
  - cbn [convert_bits_drain]. destruct (Z.geb_spec bits t) as [Hge|Hlt].
    + assert (Hm : (bits - t) mod t = bits mod t).
      { replace (bits - t) with (bits + (-1) * t) by lia.
        apply Z.mod_add. lia. }
      assert (Hd : (bits - t) / t = bits / t - 1).
      { replace (bits - t) with (bits + (-1) * t) by lia.
        rewrite Z.div_add by lia. lia. }
      rewrite IH by lia. rewrite Hm, Hd. f_equal. f_equal.
      rewrite <- app_assoc. f_equal.
      assert (Hq : 1 <= bits / t).
      { apply Z.div_le_lower_bound; lia. }
      replace (Z.to_nat (bits / t)) with (S (Z.to_nat (bits / t - 1))) by lia.
      assert (0 < 2 ^ t) by (apply Z.pow_pos_nonneg; lia).
      rewrite be_digits_head by done. simpl. f_equal.
      rewrite land_maxv by lia. f_equal.
      rewrite Z.shiftr_div_pow2 by lia.
      rewrite Z2Nat.id by lia. rewrite pow2_pow by lia.
      pose proof (Z.mod_pos_bound bits t ltac:(lia)).
      rewrite div_pow2_pow2 by nia. do 2 f_equal.
      pose proof (Z.div_mod bits t ltac:(lia)). lia.
    + rewrite Z.mod_small, Z.div_small by lia. simpl. by rewrite app_nil_r.
Qed.

Lemma step_spec f t l v :
  0 <= f -> 1 <= t -> in_base (2 ^ f) l -> 0 <= v < 2 ^ f ->
  convert_bits_step f t (2 ^ t - 1) (state_of f t l) v
  = Ok (state_of f t (l ++ [v])).
Proof.
  intros Hf Ht Hl Hv. unfold state_of, convert_bits_step.
  set (N := from_digits (2 ^ f) l).
  set (total := f * Z.of_nat (length l)).
  assert (Htot : 0 <= total) by (unfold total; nia).
  pose proof (Z.mod_pos_bound total t ltac:(lia)) as Hb.
  unfold py_shiftl. destruct (Z.ltb_spec f 0); [lia|]. cbn [bind].
  rewrite lor_shiftl_small by done.
  rewrite drain_spec by lia. cbn [bind fst snd].
  rewrite from_digits_snoc. fold N.
  rewrite length_app. simpl length.
  replace (f * Z.of_nat (length l + 1)) with (total + f) by (unfold total; lia).
  assert (Hmod : (total mod t + f) mod t = (total + f) mod t)
    by (by rewrite Z.add_mod_idemp_l by lia).
  assert (Hdiv : (total + f) / t = total / t + (total mod t + f) / t).
  { rewrite (Z.div_mod total t) at 1 by lia.
    rewrite <- Z.add_assoc, Z.mul_comm, Z.div_add_l by lia. done. }
  rewrite Hmod. do 3 f_equal.
  rewrite Hdiv.
  assert (0 <= total / t) by (apply Z.div_pos; lia).
  assert (0 <= (total mod t + f) / t) by (apply Z.div_pos; lia).
  rewrite Z2Nat.inj_add by lia.
  assert (0 < 2 ^ t) by (apply Z.pow_pos_nonneg; lia).
  rewrite be_digits_app by done. f_equal. f_equal.
  rewrite Z2Nat.id by lia. rewrite pow2_pow by lia.
  pose proof (Z.mod_pos_bound (total + f) t ltac:(lia)).
  rewrite div_pow2_pow2 by nia.
  replace ((total + f) mod t + t * ((total mod t + f) / t))
    with (f + total mod t).
  2:{ rewrite <- Hmod. pose proof (Z.div_mod (total mod t + f) t ltac:(lia)). lia. }
  rewrite <- div_pow2_pow2 by lia.
  f_equal. rewrite Z.div_add_l by lia. rewrite (Z.div_small v) by done. lia.
Qed.

Lemma fold_spec f t data l :
  0 <= f -> 1 <= t -> in_base (2 ^ f) l -> in_base (2 ^ f) data ->
  foldM (convert_bits_step f t (2 ^ t - 1)) data (state_of f t l)
  = Ok (state_of f t (l ++ data)).
Proof.
  intros Hf Ht Hl Hd. revert l Hl.
  induction Hd as [|v data Hv Hd IH]; intros l Hl.
  - simpl. by rewrite app_nil_r.
  - cbn [foldM]. rewrite step_spec by done. cbn [bind].
    rewrite IH.
    + by rewrite <- app_assoc.
    + apply Forall_app. split; [done|]. by constructor.
Qed.

Lemma state_of_nil f t : state_of f t [] = (0, 0, []).
Proof.
  unfold state_of. simpl length. rewrite Z.mul_0_r.
  destruct (Z.eq_dec t 0) as [->|]; [by rewrite Z.mod_0_r, Z.div_0_r|].
  by rewrite Z.mod_0_l, Z.div_0_l.
Qed.

(** [convert_bits] regroups the number written by [data] in base
    [2 ^ from_bits] into digits of base [2 ^ to_bits]; with padding the
    number is first shifted left to a whole number of groups. *)
Theorem convert_bits_spec data f t pad :
  0 <= f -> 1 <= t -> in_base (2 ^ f) data ->
  let N := from_digits (2 ^ f) data in
  let total := f * Z.of_nat (length data) in
  convert_bits data f t pad
  = Ok (if pad && negb (total mod t =? 0)
        then be_digits (2 ^ t) (S (Z.to_nat (total / t)))
               (N * 2 ^ (t - total mod t))
        else be_digits (2 ^ t) (Z.to_nat (total / t))
               (N / 2 ^ (total mod t))).
Proof.
  intros Hf Ht Hd N total. unfold convert_bits, py_shiftl.
  destruct (Z.ltb_spec t 0); [lia|]. cbn [bind].
  rewrite Z.shiftl_1_l, <- (state_of_nil f t).
  rewrite fold_spec by (done || constructor). cbn [bind].
  rewrite app_nil_l. unfold state_of. fold N. fold total.
  assert (Htot : 0 <= total) by (unfold total; nia).
  pose proof (Z.mod_pos_bound total t ltac:(lia)) as Hb.
  destruct (pad && negb (total mod t =? 0)); [|done].
  destruct (Z.ltb_spec (t - total mod t) 0); [lia|]. cbn [bind].
  f_equal. cbn [be_digits].
  assert (0 < 2 ^ t) by (apply Z.pow_pos_nonneg; lia).
  rewrite land_maxv, Z.shiftl_mul_pow2 by lia. f_equal. f_equal.
  replace (2 ^ t) with (2 ^ (t - total mod t) * 2 ^ (total mod t))
    by (rewrite <- Z.pow_add_r by lia; f_equal; lia).
  assert (0 < 2 ^ (t - total mod t)) by (apply Z.pow_pos_nonneg; lia).
  assert (0 < 2 ^ (total mod t)) by (apply Z.pow_pos_nonneg; lia).
  rewrite (Z.mul_comm N), Z.div_mul_cancel_l by lia. done.
Qed.

(** Regrouping 21 bytes into 34 five-bit groups and back. *)
Theorem convert_bits_8_5_8 payload :
  length payload = 21%nat -> in_base 256 payload ->
  exists groups,
    convert_bits payload 8 5 true = Ok groups
    /\ length groups = 34%nat
    /\ in_base 32 groups
    /\ groups = be_digits 32 34 (int_from_bytes payload * 4)
    /\ convert_bits groups 5 8 false = Ok payload.
Proof.
  intros Hlen Hb.
  pose proof (from_digits_bound 256 payload ltac:(lia) Hb) as HN.
  rewrite Hlen in HN.
  exists (be_digits 32 34 (int_from_bytes payload * 4)).
  split.
  { rewrite (convert_bits_spec payload 8 5 true) by (done || lia).
    rewrite Hlen. reflexivity. }
  split; [apply length_be_digits|].
  split; [apply be_digits_in_base; lia|].
  split; [done|].
  rewrite (convert_bits_spec _ 5 8 false); try lia.
  2:{ change (2 ^ 5) with 32. apply be_digits_in_base. lia. }
  rewrite andb_false_l, length_be_digits.
  change (2 ^ 5) with 32. change (2 ^ 8) with 256.
  unfold int_from_bytes.
  rewrite be_digits_small by (simpl; lia).
  change (Z.to_nat (5 * Z.of_nat 34 / 8)) with 21%nat.
  change (2 ^ ((5 * Z.of_nat 34) mod 8)) with 4.
  rewrite Z.div_mul by lia. rewrite <- Hlen.
  by rewrite be_from_digits by (done || lia).
Qed.

(** ** The CashAddr checksum and alphabet *)

Lemma lxor_bound n a b :
  0 <= n -> 0 <= a < 2 ^ n -> 0 <= b < 2 ^ n -> 0 <= Z.lxor a b < 2 ^ n.
Proof.
  intros Hn Ha Hb.
  assert (E : Z.lxor a b = Z.lxor a b mod 2 ^ n).
  { apply Z.bits_inj'. intros i Hi. destruct (Z.lt_ge_cases i n).
    - by rewrite Z.mod_pow2_bits_low.
    - rewrite Z.mod_pow2_bits_high by lia. rewrite Z.lxor_spec.
      rewrite <- (Z.mod_small a (2 ^ n)), <- (Z.mod_small b (2 ^ n)) by done.
      by rewrite !Z.mod_pow2_bits_high by lia. }
  rewrite E. apply Z.mod_pos_bound. apply Z.pow_pos_nonneg; lia.
Qed.




Lemma be_digits_32_8 p :
  map (fun i => Z.land (Z.shiftr p (5 * (7 - i))) 0x1F) [0; 1; 2; 3; 4; 5; 6; 7]
  = be_digits 32 8 p.
Proof.
  cbn [map]. change 0x1F with (2 ^ 5 - 1). rewrite !land_maxv by lia.
  rewrite !Z.shiftr_div_pow2 by lia.
  rewrite !be_digits_head by lia. cbn [be_digits].
  repeat f_equal.
Qed.

Lemma create_checksum_spec prefix payload :
  create_checksum prefix payload
  = be_digits 32 8
      (polymod (map (fun x => Z.land x 0x1F) prefix ++ [0] ++ payload
                  ++ [0; 0; 0; 0; 0; 0; 0; 0])).
Proof.
  unfold create_checksum. rewrite be_digits_32_8. by rewrite <- !app_assoc.
Qed.

Lemma py_index_charset d :
  0 <= d < 32 -> py_index CHARSET d = Ok (charset_char d).
Proof.
  intros Hd. unfold py_index, charset_char. rewrite nth_lookup.
  assert (Hlen : length CHARSET = 32%nat) by reflexivity.
  rewrite Hlen. change (Z.of_nat 32) with 32.
  destruct (Z.ltb_spec d 0); [lia|].
  destruct (Z.ltb_spec d 0); [lia|].
  destruct (Z.leb_spec 32 d); [lia|]. cbn [orb].
  match goal with
  | |- context [match ?x with Some _ => _ | None => _ end] =>
      destruct x eqn:E; [done|]
  end.
  apply lookup_ge_None in E. lia.
Qed.

Lemma encode_base32_spec data :
  in_base 32 data -> encode_base32 data = Ok (map charset_char data).
Proof.
  intros H. unfold encode_base32.
  induction H as [|d data Hd _ IH]; [done|].
  cbn [mapM map]. rewrite py_index_charset by done. cbn [bind].
  by rewrite IH.
Qed.

Lemma charset_find d :
  0 <= d < 32 -> find_char (charset_char d) CHARSET = Some d.
Proof.
  intros Hd.
  assert (Hall : forallb (fun i =>
            match find_char (charset_char (Z.of_nat i)) CHARSET with
            | Some j => j =? Z.of_nat i
            | None => false
            end) (seq 0 32) = true) by (vm_compute; reflexivity).
  rewrite forallb_forall in Hall.
  specialize (Hall (Z.to_nat d)). rewrite Z2Nat.id in Hall by lia.
  assert (Hin : In (Z.to_nat d) (seq 0 32)) by (apply in_seq; lia).
  apply Hall in Hin.
  destruct (find_char (charset_char d) CHARSET); [|done].
  f_equal. lia.
Qed.

Lemma decode_base32_encode data :
  in_base 32 data -> decode_base32 (map charset_char data) = Ok data.
Proof.
  intros H. unfold decode_base32.
  induction H as [|d data Hd _ IH]; [done|].
  cbn [mapM map]. rewrite charset_find by done. cbn [bind].
  by rewrite IH.
Qed.

(** ** Slices and scalars *)

Lemma be_bytes_4 n : be_bytes 4 n = be32 n.
Proof.
  unfold be_bytes, be32. rewrite !be_digits_head by lia. cbn [be_digits].
  change 255 with (2 ^ 8 - 1). rewrite !land_maxv by lia.
  rewrite !Z.shiftr_div_pow2 by lia. rewrite Z.div_1_r. done.
Qed.

(** A range test that runs. *)
Lemma in_base_forallb B l :
  forallb (fun d => (0 <=? d) && (d <? B)) l = true -> in_base B l.
Proof.
  intros Hl. apply Forall_forall. intros d Hd.
  apply list_elem_of_In in Hd.
  rewrite forallb_forall in Hl. specialize (Hl d Hd). lia.
Qed.

Lemma be32_in_base n : in_base 256 (be32 n).
Proof.
  unfold be32. change 255 with (2 ^ 8 - 1). rewrite !land_maxv by lia.
  repeat (constructor; [apply Z.mod_pos_bound; lia|]). constructor.
Qed.

Lemma py_slice_to {A} (l : list A) (n : nat) :
  py_slice l None (Some (Z.of_nat n)) = take n l.
Proof.
  unfold py_slice, norm_idx. destruct (Z.ltb_spec (Z.of_nat n) 0); [lia|].
  rewrite Z.sub_0_r. change (Z.to_nat 0) with 0%nat. rewrite drop_0.
  destruct (Z.min_spec (Z.of_nat n) (Z.of_nat (length l))) as [[? ->]|[? ->]].
  - by rewrite Nat2Z.id.
  - rewrite Nat2Z.id. rewrite !firstn_all2; [done|lia|lia].
Qed.

Lemma py_slice_from {A} (l : list A) (n : nat) :
  py_slice l (Some (Z.of_nat n)) None = drop n l.
Proof.
  unfold py_slice, norm_idx. destruct (Z.ltb_spec (Z.of_nat n) 0); [lia|].
  destruct (Z.min_spec (Z.of_nat n) (Z.of_nat (length l))) as [[? ->]|[? ->]].
  - rewrite Nat2Z.id. apply firstn_all2. rewrite length_drop. lia.
  - rewrite Nat2Z.id, Z.sub_diag. simpl.
    rewrite !skipn_all2; [done|lia|lia].
Qed.

Lemma number_to_string_order num :
  0 <= num < SECP256k1_order ->
  number_to_string num SECP256k1_order = Ok (be_bytes 32 num).
Proof.
  intros Hn. unfold number_to_string.
  change (orderlen SECP256k1_order) with 32.
  destruct (Z.ltb_spec num 0); [lia|].
  assert (Hh : hexlen num <= 64).
  { unfold hexlen. destruct (Z.leb_spec num 0); [lia|].
    assert (Z.log2 num < 256).
    { apply Z.log2_lt_pow2; [lia|]. unfold SECP256k1_order in Hn. lia. }
    assert (Z.log2 num / 4 < 64) by (apply Z.div_lt_upper_bound; lia). lia. }
  rewrite Z.max_l by lia. done.
Qed.

Lemma string_to_number_ok s :
  (0 < length s)%nat -> string_to_number s = Ok (int_from_bytes s).
Proof. destruct s; simpl; [lia|done]. Qed.


(** ** Sizes of the reference digests *)

Lemma state8_bytes_length w s :
  length (Reference.state8_bytes w s) = (8 * w)%nat.
Proof.
  unfold Reference.state8_bytes, be_bytes.
  rewrite !length_app, !length_be_digits. lia.
Qed.

Lemma state8_bytes_in_base w s : in_base 256 (Reference.state8_bytes w s).
Proof.
  unfold in_base, Reference.state8_bytes, be_bytes.
  rewrite !Forall_app. repeat split; apply be_digits_in_base; lia.
Qed.

Lemma ref_ripemd160_length d : length (Reference.ripemd160 d) = 20%nat.
Proof.
  unfold Reference.ripemd160, Reference.le_bytes, be_bytes.
  rewrite !length_app, !length_rev, !length_be_digits. done.
Qed.

Lemma ref_ripemd160_in_base d : in_base 256 (Reference.ripemd160 d).
Proof.
  unfold in_base, Reference.ripemd160, Reference.le_bytes, be_bytes.
  rewrite !Forall_app. repeat split;
    apply Forall_rev, be_digits_in_base; lia.
Qed.

Lemma xor_bytes_in_base a b :
  in_base 256 a -> in_base 256 b -> in_base 256 (Reference.xor_bytes a b).
Proof.
  intros Ha. revert b. induction Ha as [|x a Hx _ IH]; intros b Hb.
  - constructor.
  - destruct Hb as [|y b Hy Hb]; [constructor|].
    unfold Reference.xor_bytes. simpl. constructor.
    + apply (lxor_bound 8); lia.
    + by apply IH.
Qed.

Lemma hmac_sha512_in_base k d : in_base 256 (Reference.hmac_sha512 k d).
Proof. apply state8_bytes_in_base. Qed.

Lemma pbkdf2_rounds_in_base password n u acc :
  in_base 256 acc -> in_base 256 (Reference.pbkdf2_rounds password n u acc).
Proof.
  revert u acc. induction n as [|n IH]; intros u acc Hacc; simpl; [done|].
  apply IH, xor_bytes_in_base; [done|apply hmac_sha512_in_base].
Qed.

Lemma pbkdf2_in_base password salt iterations dklen :
  in_base 256 (Reference.pbkdf2 password salt iterations dklen).
Proof.
  unfold Reference.pbkdf2. apply Forall_take.
  induction (seq 1 (Z.to_nat ((dklen + 63) / 64))) as [|i l IH]; simpl.
  - constructor.
  - apply Forall_app. split; [|done].
    apply pbkdf2_rounds_in_base, hmac_sha512_in_base.
Qed.

Lemma reference_sizes : HashlibSizes Reference.hashlib.
Proof.
  split.
  - intros d. apply (state8_bytes_length 4).
  - apply ref_ripemd160_length.
  - apply ref_ripemd160_in_base.
  - intros d. apply state8_bytes_in_base.
  - intros k d. apply (state8_bytes_length 8).
  - apply pbkdf2_in_base.
Qed.

Lemma py_slice_range {A} (l : list A) (a b : nat) :
  (a <= length l)%nat -> (b <= length l)%nat ->
  py_slice l (Some (Z.of_nat a)) (Some (Z.of_nat b)) = take (b - a) (drop a l).
Proof.
  intros Ha Hb. unfold py_slice, norm_idx.
  destruct (Z.ltb_spec (Z.of_nat a) 0); [lia|].
  destruct (Z.ltb_spec (Z.of_nat b) 0); [lia|].
  rewrite !Z.min_l by lia. rewrite Nat2Z.id. f_equal. lia.
Qed.

Lemma py_slice_upto_end {A} (l : list A) (a b : nat) :
  (a <= length l)%nat -> (0 < b <= length l)%nat ->
  py_slice l (Some (Z.of_nat a)) (Some (- Z.of_nat b))
  = take (length l - b - a) (drop a l).
Proof.
  intros Ha Hb. unfold py_slice, norm_idx.
  destruct (Z.ltb_spec (Z.of_nat a) 0); [lia|].
  destruct (Z.ltb_spec (- Z.of_nat b) 0); [|lia].
  rewrite Z.min_l, Z.max_r by lia. rewrite Nat2Z.id. f_equal. lia.
Qed.

Lemma lor_hardened_range index :
  0 <= index < 2 ^ 32 -> 0 <= Z.lor index 0x80000000 < 2 ^ 32.
Proof.
  intros Hidx. split; [apply Z.lor_nonneg; lia|].
  destruct (Z.eq_dec (Z.lor index 2147483648) 0) as [->|Hnz]; [lia|].
  apply Z.log2_lt_pow2; [pose proof (Z.lor_nonneg index 2147483648); lia|].
  rewrite Z.log2_lor by lia.
  assert (Z.log2 index < 32).
  { destruct (Z.eq_dec index 0) as [->|]; [simpl; lia|].
    apply Z.log2_lt_pow2; lia. }
  change (Z.log2 2147483648) with 31. lia.
Qed.

Lemma int_to_bytes_4 n :
  0 <= n < 2 ^ 32 -> int_to_bytes n 4 = Ok (be32 n).
Proof.
  intros Hn. unfold int_to_bytes.
  destruct (Z.leb_spec 0 n); [|lia].
  destruct (Z.ltb_spec n (256 ^ Z.of_nat 4)); [|simpl in *; lia].
  cbn [andb]. by rewrite be_bytes_4.
Qed.

Lemma int_to_bytes_overflow n len :
  n < 0 \/ 256 ^ Z.of_nat len <= n -> int_to_bytes n len = Raise OverflowError.
Proof.
  intros Hn. unfold int_to_bytes.
  destruct (Z.leb_spec 0 n); destruct (Z.ltb_spec n (256 ^ Z.of_nat len));
    simpl; done || lia.
Qed.

(** The value [child_key_hardened] returns on a 32-byte key and a 32-bit
    index. *)
Lemma child_key_hardened_value `{H : Hashlib}
    (parent_key parent_chain_code : list Z) (index : Z) :
  (forall k d, length (hmac_new_sha512 k d) = 64%nat) ->
  length parent_key = 32%nat ->
  0 <= index < 2 ^ 32 ->
  let I := hmac_new_sha512 parent_chain_code
             ([0] ++ parent_key ++ be32 (Z.lor index 0x80000000)) in
  child_key_hardened parent_key parent_chain_code index true
  = Ok (be_bytes 32
          ((int_from_bytes (take 32 I) + int_from_bytes parent_key)
             mod SECP256k1_order),
        take 32 (drop 32 I)).
Proof.
  intros hmac_length Hlen Hidx I.
  pose proof (lor_hardened_range index Hidx) as Hi'.
  unfold child_key_hardened.
  rewrite int_to_bytes_4 by done. cbn [bind]. unfold hmac_sha512. fold I.
  change (Some 32) with (Some (Z.of_nat 32)).
  rewrite py_slice_to, py_slice_from.
  rewrite !string_to_number_ok
    by (rewrite ?length_take; unfold I; rewrite ?hmac_length; lia).
  cbn [bind].
  rewrite number_to_string_order by (apply Z.mod_pos_bound; reflexivity).
  cbn [bind]. do 2 f_equal.
  symmetry. apply firstn_all2. rewrite length_drop. unfold I.
  rewrite hmac_length. lia.
Qed.

Lemma py_slice_none_start {A} (l : list A) stop :
  py_slice l None stop = py_slice l (Some 0) stop.
Proof.
  unfold py_slice, norm_idx. simpl.
  by rewrite Z.min_l by lia.
Qed.

(** The parts of a CashAddr address: 34 payload groups, which regroup to
    [0x00 || hash160], and 8 checksum groups. *)
Lemma public_key_to_cashaddr_address_parts `{H : Hashlib}
    {HS : HashlibSizes H} (pubkey : list Z) :
  exists groups check,
    public_key_to_cashaddr_address pubkey
    = Ok (str_of "bitcoincash:" ++ map charset_char (groups ++ check))
    /\ (length groups = 34%nat /\ in_base 32 groups)
    /\ (length check = 8%nat /\ in_base 32 check)
    /\ convert_bits groups 5 8 false
       = Ok ([0x00] ++ hashlib_ripemd160 (hashlib_sha256 pubkey)).
Proof.
  set (payload := [0x00] ++ hash160 pubkey).
  assert (Hlen : length payload = 21%nat).
  { unfold payload, hash160. rewrite length_app, ripemd160_length. done. }
  assert (Hb : in_base 256 payload).
  { unfold payload, hash160. apply Forall_app. split.
    - constructor; [lia|constructor].
    - apply ripemd160_range. }
  destruct (convert_bits_8_5_8 payload Hlen Hb)
    as (groups & Hconv & Hglen & Hgb & _ & Hback).
  exists groups, (create_checksum (str_of "bitcoincash") groups).
  assert (Hc : length (create_checksum (str_of "bitcoincash") groups) = 8%nat
               /\ in_base 32 (create_checksum (str_of "bitcoincash") groups)).
  { rewrite create_checksum_spec. split; [apply length_be_digits|].
    apply be_digits_in_base. lia. }
  split; [|done].
  unfold public_key_to_cashaddr_address. fold payload.
  rewrite Hconv. cbn [bind].
  rewrite encode_base32_spec; [done|].
  apply Forall_app. split; [done | apply Hc].
Qed.

(** ** Text *)






(** ** Seed instances *)

Lemma seed_bytes_not_class_attr : "seed_bytes"%string ∉ Seed.class_attrs.
Proof.
  intros Hin. apply list_elem_of_In in Hin. unfold Seed.class_attrs in Hin.
  simpl in Hin. intuition discriminate.
Qed.

Lemma generate_seed_preserves `{H : Hashlib} `{E : Ecdsa}
    (self : gmap string Seed.pyval) (name : string) :
  name <> "xpriv"%string -> name <> "xpub"%string ->
  name <> "fingerprint"%string ->
  fst (Seed.generate_seed self) !! name = self !! name.
Proof.
  intros N1 N2 N3. unfold Seed.generate_seed.
  destruct (m <- Seed.mnemonic_str self ;; _) as [[hexa_seed a]| |]; [|done|done].
  destruct (fingerprint_hex hexa_seed); cbn [fst];
    by rewrite ?lookup_insert_ne by done.
Qed.

(** No instance ever holds an attribute [seed_bytes]. *)
Lemma reachable_no_seed_bytes `{H : Hashlib} `{E : Ecdsa} `{R : Resources}
    (self : gmap string Seed.pyval) :
  Seed.reachable self -> self !! "seed_bytes" = None.
Proof.
  induction 1 as [mnemonic self Hinit | self p _ IH | self _ IH].
  - unfold Seed.__init__ in Hinit. destruct mnemonic as [|w ws]; [done|].
    destruct (Seed._validate_mnemonic _); [|done|done].
    cbn [bind] in Hinit. injection Hinit as <-.
    by rewrite !lookup_insert_ne by done.
  - unfold Seed.set_passphrase. by rewrite lookup_insert_ne by done.
  - by rewrite generate_seed_preserves by done.
Qed.

(** ** Mnemonic validation *)

Lemma be_digits_zero B len : 0 < B -> be_digits B len 0 = repeat 0 len.
Proof.
  intros HB. induction len as [|k IH]; [done|].
  cbn [be_digits]. rewrite Z.div_0_l, Z.mod_0_l, IH by lia.
  by rewrite <- repeat_cons.
Qed.


























(** * The claims *)

(** ** Hardened child derivation *)

(** C1.  For a 32-byte parent key, any chain code and a 32-bit index,
    hardened derivation sets the top bit of the index, computes
    [I = HMAC-SHA512(chainCode, 0x00 || key || be32(index'))] and returns
    the 32-byte big-endian encoding of
    [(int(I[0:32]) + int(key)) mod n] together with [I[32:64]]. *)
Theorem child_key_hardened_spec `{H : Hashlib}
    (parent_key parent_chain_code : list Z) (index : Z) :
  (forall k d, length (hmac_new_sha512 k d) = 64%nat) ->
  length parent_key = 32%nat ->
  0 <= index < 2 ^ 32 ->
  let index' := Z.lor index 0x80000000 in
  let data := [0] ++ parent_key ++ be32 index' in
  let I := hmac_new_sha512 parent_chain_code data in
  let childScalar :=
    (int_from_bytes (take 32 I) + int_from_bytes parent_key)
      mod SECP256k1_order in
  exists childKey childChainCode,
    child_key_hardened parent_key parent_chain_code index true
    = Ok (childKey, childChainCode)
    /\ length childKey = 32%nat
    /\ int_from_bytes childKey = childScalar
    /\ childChainCode = take 32 (drop 32 I).
Proof.
  intros Hmac Hlen Hidx index' data I childScalar.
  exists (be_bytes 32 childScalar), (take 32 (drop 32 I)).
  split; [by apply child_key_hardened_value|].
  split; [apply length_be_digits|]. split; [|done].
  assert (Hs : 0 <= childScalar < SECP256k1_order)
    by (apply Z.mod_pos_bound; reflexivity).
  apply be_digits_small; [lia|]. unfold SECP256k1_order in Hs. simpl. lia.
Qed.

(** The first hardened child of the master key of the first BIP-32 test
    vector. *)
Lemma child_key_hardened_spec_witness :
  exists childKey childChainCode,
    child_key_hardened (H := Reference.hashlib)
      (Reference.hex
         "e8f32e723decf4051aefac8e2c93c9c5b214313817cdb01a1494b917c8436b35")
      (Reference.hex
         "873dff81c02f525623fd1fe5167eac3a55a049de3d314bb42ee227ffed37d508")
      0 true
    = Ok (childKey, childChainCode)
    /\ length childKey = 32%nat.
Proof.
  destruct (child_key_hardened_spec (H := Reference.hashlib)
              (Reference.hex
                 "e8f32e723decf4051aefac8e2c93c9c5b214313817cdb01a1494b917c8436b35")
              (Reference.hex
                 "873dff81c02f525623fd1fe5167eac3a55a049de3d314bb42ee227ffed37d508")
              0)
    as (k & c & Hr & Hl & _).
  - intros k d. apply (state8_bytes_length 8).
  - reflexivity.
  - lia.
  - exists k, c. split; [exact Hr | exact Hl].
Defined.

Example child_key_hardened_bip32_vector :
  child_key_hardened (H := Reference.hashlib)
    (Reference.hex
       "e8f32e723decf4051aefac8e2c93c9c5b214313817cdb01a1494b917c8436b35")
    (Reference.hex
       "873dff81c02f525623fd1fe5167eac3a55a049de3d314bb42ee227ffed37d508")
    0 true
  = Ok (Reference.hex
          "edb2e14f9ee77d26dd93b4ecede8d16ed408ce149b6cd80b0715a2d911a0afea",
        Reference.hex
          "47fdacbd0f1097043b78c63c20c34ef4ed9a111d980047ad16282c7ae6236141").
Proof. vm_compute. reflexivity. Qed.




(** ** Extended keys *)

Lemma sha256d_check_length `{H : Hashlib} (data : list Z) :
  (forall d, length (hashlib_sha256 d) = 32%nat) ->
  length (take 4 (hashlib_sha256 (hashlib_sha256 data))) = 4%nat.
Proof. intros Hlen. rewrite length_take, Hlen. done. Qed.

(** C3.  The two encoders return the Base58 text of
    [payload || SHA256(SHA256(payload))[0:4]], where the payload is the
    four version bytes ([0x0488ADE4] private, [0x0488B21E] public), the
    depth, the parent fingerprint, the child index, the chain code and
    the key field ([0x00 || scalar] private, the compressed point
    public): 78 bytes for fields of the standard widths, which
    [b58decode] gives back. *)
Theorem extended_key_encode_spec `{H : Hashlib} {HS : HashlibSizes H}
    (depth fingerprint index chain_code key pubkey : list Z) :
  length depth = 1%nat -> length fingerprint = 4%nat ->
  length index = 4%nat -> length chain_code = 32%nat ->
  length key = 32%nat -> length pubkey = 33%nat ->
  in_base 256 (depth ++ fingerprint ++ index ++ chain_code) ->
  in_base 256 key -> in_base 256 pubkey ->
  let fields := depth ++ fingerprint ++ index ++ chain_code in
  let payload_priv := be32 0x0488ADE4 ++ fields ++ [0x00] ++ key in
  let payload_pub := be32 0x0488B21E ++ fields ++ pubkey in
  let checksum p := take 4 (hashlib_sha256 (hashlib_sha256 p)) in
  xpriv_encode depth fingerprint index chain_code key
  = b58encode (payload_priv ++ checksum payload_priv)
  /\ xpub_encode depth fingerprint index chain_code pubkey
     = b58encode (payload_pub ++ checksum payload_pub)
  /\ length payload_priv = 78%nat /\ length payload_pub = 78%nat
  /\ b58decode (xpriv_encode depth fingerprint index chain_code key)
     = Ok (payload_priv ++ checksum payload_priv)
  /\ b58decode (xpub_encode depth fingerprint index chain_code pubkey)
     = Ok (payload_pub ++ checksum payload_pub).
Proof.
  intros Hd Hf Hi Hc Hk Hp Hfields Hkey Hpub fields ppriv ppub checksum.
  assert (Epriv : xpriv_encode depth fingerprint index chain_code key
                  = b58encode (ppriv ++ checksum ppriv)).
  { unfold xpriv_encode, sha256. change (Some 4) with (Some (Z.of_nat 4)).
    rewrite py_slice_to. unfold ppriv, checksum, fields, be32.
    by rewrite <- !app_assoc. }
  assert (Epub : xpub_encode depth fingerprint index chain_code pubkey
                 = b58encode (ppub ++ checksum ppub)).
  { unfold xpub_encode, sha256. change (Some 4) with (Some (Z.of_nat 4)).
    rewrite py_slice_to. unfold ppub, checksum, fields, be32.
    by rewrite <- !app_assoc. }
  assert (Hcheck : forall p, in_base 256 (checksum p)).
  { intros p. apply Forall_take, sha256_range. }
  split; [done|]. split; [done|].
  split; [unfold ppriv, fields; rewrite !length_app; simpl; lia|].
  split; [unfold ppub, fields; rewrite !length_app; simpl; lia|].
  rewrite Epriv, Epub. split; apply b58decode_b58encode.
  - unfold ppriv. unfold in_base. rewrite !Forall_app.
    repeat split;
      first [done | apply Hcheck | apply be32_in_base
            | constructor; [lia|constructor]].
  - unfold ppub. unfold in_base. rewrite !Forall_app.
    repeat split; first [done | apply Hcheck | apply be32_in_base].
Qed.

(** The extended keys of [m/0'] in the first BIP-32 test vector. *)
Lemma extended_key_encode_spec_witness :
  xpriv_encode (H := Reference.hashlib) [1] (Reference.hex "3442193e")
    (Reference.hex "80000000")
    (Reference.hex
       "47fdacbd0f1097043b78c63c20c34ef4ed9a111d980047ad16282c7ae6236141")
    (Reference.hex
       "edb2e14f9ee77d26dd93b4ecede8d16ed408ce149b6cd80b0715a2d911a0afea")
  = str_of
      "xprv9uHRZZhk6KAJC1avXpDAp4MDc3sQKNxDiPvvkX8Br5ngLNv1TxvUxt4cV1rGL5hj6KCesnDYUhd7oWgT11eZG7XnxHrnYeSvkzY7d2bhkJ7"
  /\ xpub_encode (H := Reference.hashlib) [1] (Reference.hex "3442193e")
       (Reference.hex "80000000")
       (Reference.hex
          "47fdacbd0f1097043b78c63c20c34ef4ed9a111d980047ad16282c7ae6236141")
       (Reference.hex
          "035a784662a4a20a65bf6aab9ae98a6c068a81c52e4b032c0fb5400c706cfccc56")
     = str_of
         "xpub68Gmy5EdvgibQVfPdqkBBCHxA5htiqg55crXYuXoQRKfDBFA1WEjWgP6LHhwBZeNK1VTsfTFUHCdrfp1bgwQ9xv5ski8PX9rL2dZXvgGDnw".
Proof.
  destruct (extended_key_encode_spec (H := Reference.hashlib)
              (HS := reference_sizes)
              [1] (Reference.hex "3442193e") (Reference.hex "80000000")
              (Reference.hex
                 "47fdacbd0f1097043b78c63c20c34ef4ed9a111d980047ad16282c7ae6236141")
              (Reference.hex
                 "edb2e14f9ee77d26dd93b4ecede8d16ed408ce149b6cd80b0715a2d911a0afea")
              (Reference.hex
                 "035a784662a4a20a65bf6aab9ae98a6c068a81c52e4b032c0fb5400c706cfccc56"))
    as (Hpriv & Hpub & _).
  1-6: reflexivity.
  1-3: apply in_base_forallb; vm_compute; reflexivity.
  rewrite Hpriv, Hpub. split; vm_compute; reflexivity.
Defined.

(** C4 as stated fails: the last character of the [m/0'] extended public
    key of the first BIP-32 test vector is mistyped ([x] for [w]); the
    four trailing bytes no longer equal the double SHA-256 of the
    payload, and [xpub_decode] returns the six fields all the same. *)
Lemma xpub_decode_accepts_bad_checksum :
  let xpub :=
    str_of
      "xpub68Gmy5EdvgibQVfPdqkBBCHxA5htiqg55crXYuXoQRKfDBFA1WEjWgP6LHhwBZeNK1VTsfTFUHCdrfp1bgwQ9xv5ski8PX9rL2dZXvgGDnx" in
  exists xpub_bytes,
    b58decode xpub = Ok xpub_bytes
    /\ take 4 (Reference.sha256 (Reference.sha256 (take 78 xpub_bytes)))
       <> drop 78 xpub_bytes
    /\ xpub_decode xpub
       = Ok {| xf_version := Reference.hex "0488b21e";
               xf_depth := [1];
               xf_fingerprint := Reference.hex "3442193e";
               xf_child_number := Reference.hex "80000000";
               xf_chain_code :=
                 Reference.hex
                   "47fdacbd0f1097043b78c63c20c34ef4ed9a111d980047ad16282c7ae6236141";
               xf_public_key :=
                 Reference.hex
                   "035a784662a4a20a65bf6aab9ae98a6c068a81c52e4b032c0fb5400c706cfccc56" |}.
Proof.
  eexists. split; [vm_compute; reflexivity|].
  split; [vm_compute; discriminate | vm_compute; reflexivity].
Qed.

(** C4, as the code has it.  The decoder Base58-decodes the text and cuts
    the bytes at the fixed offsets 4, 5, 9, 13, 45 and four before the
    end; the four trailing bytes are dropped without being compared with
    anything, so the text of a 78-byte payload followed by any four
    bytes decodes to the fields of the payload. *)
Theorem xpub_decode_ignores_checksum (payload trailer : list Z) :
  length payload = 78%nat -> length trailer = 4%nat ->
  in_base 256 payload -> in_base 256 trailer ->
  xpub_decode (b58encode (payload ++ trailer))
  = Ok {| xf_version := take 4 payload;
          xf_depth := take 1 (drop 4 payload);
          xf_fingerprint := take 4 (drop 5 payload);
          xf_child_number := take 4 (drop 9 payload);
          xf_chain_code := take 32 (drop 13 payload);
          xf_public_key := drop 45 payload |}.
Proof.
  intros Hp Ht Bp Bt. unfold xpub_decode.
  rewrite b58decode_b58encode by (apply Forall_app; done). cbn [bind].
  assert (Hlen : length (payload ++ trailer) = 82%nat)
    by (rewrite length_app; lia).
  change (Some 4) with (Some (Z.of_nat 4)).
  change (Some 5) with (Some (Z.of_nat 5)).
  change (Some 9) with (Some (Z.of_nat 9)).
  change (Some 13) with (Some (Z.of_nat 13)).
  change (Some 45) with (Some (Z.of_nat 45)).
  change (Some (-4)) with (Some (- Z.of_nat 4)).
  rewrite py_slice_to, !py_slice_range, py_slice_upto_end by lia.
  rewrite Hlen. cbn [Nat.sub].
  rewrite !drop_app_le, !take_app_le by (rewrite ?length_drop; lia).
  do 2 f_equal. apply firstn_all2. rewrite length_drop. lia.
Qed.

Lemma xpub_decode_ignores_checksum_witness :
  xpub_decode
    (b58encode
       (Reference.hex
          "0488b21e013442193e8000000047fdacbd0f1097043b78c63c20c34ef4ed9a111d980047ad16282c7ae6236141035a784662a4a20a65bf6aab9ae98a6c068a81c52e4b032c0fb5400c706cfccc56"
        ++ [0; 0; 0; 0]))
  = Ok {| xf_version := Reference.hex "0488b21e";
          xf_depth := [1];
          xf_fingerprint := Reference.hex "3442193e";
          xf_child_number := Reference.hex "80000000";
          xf_chain_code :=
            Reference.hex
              "47fdacbd0f1097043b78c63c20c34ef4ed9a111d980047ad16282c7ae6236141";
          xf_public_key :=
            Reference.hex
              "035a784662a4a20a65bf6aab9ae98a6c068a81c52e4b032c0fb5400c706cfccc56" |}.
Proof.
  rewrite xpub_decode_ignores_checksum.
  - reflexivity.
  - reflexivity.
  - reflexivity.
  - apply in_base_forallb. vm_compute. reflexivity.
  - repeat constructor; lia.
Defined.

(** ** Public child derivation *)

(** C5 as stated fails: at the hardened index [0x80000000] the call is
    not rejected; it derives a child of the [m/0'] public key of the
    first BIP-32 test vector. *)
Lemma derive_public_child_key_accepts_hardened :
  derive_public_child_key (H := Reference.hashlib) (H0 := Reference.ecdsa)
    (Reference.hex
       "035a784662a4a20a65bf6aab9ae98a6c068a81c52e4b032c0fb5400c706cfccc56")
    (Reference.hex
       "47fdacbd0f1097043b78c63c20c34ef4ed9a111d980047ad16282c7ae6236141")
    0x80000000
  = Ok (Reference.hex
          "03e947202aa1f5e4512cc1f1523b5643f8c811b632409ec34d65c5ade4f27ba101",
        Reference.hex
          "7a635d26aef8fec3ad4a25fc4ff166307d0024271d66cfc5803defc5f4c6b062").
Proof. vm_compute. reflexivity. Qed.

(** The second child of [m/0'] in the first BIP-32 test vector. *)
Example derive_public_child_key_bip32_vector :
  derive_public_child_key (H := Reference.hashlib) (H0 := Reference.ecdsa)
    (Reference.hex
       "035a784662a4a20a65bf6aab9ae98a6c068a81c52e4b032c0fb5400c706cfccc56")
    (Reference.hex
       "47fdacbd0f1097043b78c63c20c34ef4ed9a111d980047ad16282c7ae6236141")
    1
  = Ok (Reference.hex
          "03501e454bf00751f24b1b489aa925215d66af2234e3891c3b21a52bedb3cd711c",
        Reference.hex
          "2a7857631386ba23dacac34180dd1983734e444fdbf774041578e9b6adb37c19").
Proof. vm_compute. reflexivity. Qed.

(** C5, as the code has it.  For every 32-bit index, hardened or not,
    the call makes no test on the index: with
    [I = HMAC-SHA512(chainCode, pub || be32(index))] it raises
    [ValueError] when [int(I[0:32]) >= n], and otherwise parses the
    parent point, adds [int(I[0:32]) * G] to it and returns the
    compressed sum with [I[32:64]]. *)
Theorem derive_public_child_key_spec `{H : Hashlib} `{E : Ecdsa}
    (parent_public_key_bytes parent_chain_code : list Z) (index : Z) :
  (forall k d, length (hmac_new_sha512 k d) = 64%nat) ->
  0 <= index < 2 ^ 32 ->
  let I := hmac_new_sha512 parent_chain_code
             (parent_public_key_bytes ++ be32 index) in
  let IL := int_from_bytes (take 32 I) in
  derive_public_child_key parent_public_key_bytes parent_chain_code index
  = if IL >=? SECP256k1_order then Raise ValueError
    else
      parent <- vk_from_string parent_public_key_bytes ;;
      child <- vk_from_public_point (point_add (generator_mul IL) parent) ;;
      Ok (child, take 32 (drop 32 I)).
Proof.
  intros Hmac Hidx I IL. unfold derive_public_child_key.
  rewrite int_to_bytes_4 by done. cbn [bind]. fold I.
  change (Some 32) with (Some (Z.of_nat 32)).
  rewrite py_slice_to, py_slice_from. fold IL.
  rewrite (take_ge (drop 32 I))
    by (rewrite length_drop; unfold I; rewrite Hmac; lia).
  done.
Qed.

Lemma derive_public_child_key_spec_witness :
  let pub :=
    Reference.hex
      "035a784662a4a20a65bf6aab9ae98a6c068a81c52e4b032c0fb5400c706cfccc56" in
  let chain_code :=
    Reference.hex
      "47fdacbd0f1097043b78c63c20c34ef4ed9a111d980047ad16282c7ae6236141" in
  let I := hmac_new_sha512 (Hashlib := Reference.hashlib) chain_code
             (pub ++ be32 0x80000001) in
  let IL := int_from_bytes (take 32 I) in
  derive_public_child_key (H := Reference.hashlib) (H0 := Reference.ecdsa)
    pub chain_code 0x80000001
  = if IL >=? SECP256k1_order then Raise ValueError
    else
      parent <- vk_from_string (Ecdsa := Reference.ecdsa) pub ;;
      child <- vk_from_public_point (Ecdsa := Reference.ecdsa)
                 (point_add (generator_mul IL) parent) ;;
      Ok (child, take 32 (drop 32 I)).
Proof.
  intros pub chain_code I IL.
  refine (derive_public_child_key_spec (H := Reference.hashlib)
            (E := Reference.ecdsa) pub chain_code 0x80000001 _ _).
  - intros k d. apply (state8_bytes_length 8).
  - lia.
Defined.

(** An index that does not fit 32 bits is refused by [to_bytes]. *)
Lemma derive_public_child_key_overflow `{H : Hashlib} `{E : Ecdsa}
    (parent_public_key_bytes parent_chain_code : list Z) (index : Z) :
  index < 0 \/ 2 ^ 32 <= index ->
  derive_public_child_key parent_public_key_bytes parent_chain_code index
  = Raise OverflowError.
Proof.
  intros Hidx. unfold derive_public_child_key.
  by rewrite int_to_bytes_overflow.
Qed.

(** ** Addresses *)



(** C9.  The legacy address and the CashAddr address of a public key
    carry the same hash160: the Base58 text decodes to
    [0x00 || hash160 || checksum] (25 bytes), and the CashAddr body,
    read back through the charset, without its eight checksum groups
    and regrouped from five to eight bits, is [0x00 || hash160]. *)
Theorem address_formats_same_hash160 `{H : Hashlib} {HS : HashlibSizes H}
    (pubkey : list Z) :
  let h := hashlib_ripemd160 (hashlib_sha256 pubkey) in
  length h = 20%nat
  /\ (exists checksum,
        length checksum = 4%nat
        /\ legacy_decode (public_key_to_legacy_address pubkey)
           = Ok ([0x00] ++ h ++ checksum))
  /\ (exists address,
        public_key_to_cashaddr_address pubkey = Ok address
        /\ cashaddr_decode address = Ok ([0x00] ++ h)).
Proof.
  intros h. split; [apply ripemd160_length|]. split.
  - exists (take 4 (hashlib_sha256 (hashlib_sha256 ([0x00] ++ h)))).
    split; [apply sha256d_check_length, sha256_length|].
    unfold legacy_decode, public_key_to_legacy_address. fold h.
    change (Some 4) with (Some (Z.of_nat 4)). rewrite py_slice_to.
    rewrite b58decode_b58encode; [by rewrite <- app_assoc|].
    unfold in_base. rewrite !Forall_app. repeat split.
    + constructor; [lia|constructor].
    + apply ripemd160_range.
    + apply Forall_take, sha256_range.
  - destruct (public_key_to_cashaddr_address_parts pubkey)
      as (groups & check & Haddr & Hg & Hc & Hback).
    eexists. split; [exact Haddr|].
    unfold cashaddr_decode.
    change (drop 12 (str_of "bitcoincash:" ++ ?x)) with x.
    rewrite decode_base32_encode
      by (apply Forall_app; split; [apply Hg | apply Hc]).
    cbn [bind].
    assert (Hlen : length (groups ++ check) = 42%nat)
      by (rewrite length_app; destruct Hg as [-> _], Hc as [-> _]; done).
    rewrite py_slice_none_start.
    change (Some 0) with (Some (Z.of_nat 0)).
    change (Some (-8)) with (Some (- Z.of_nat 8)).
    rewrite py_slice_upto_end by lia. rewrite Hlen, drop_0.
    change (42 - 8 - 0)%nat with 34%nat.
    rewrite take_app_length' by (symmetry; apply Hg). exact Hback.
Qed.

Lemma address_formats_same_hash160_witness :
  let pubkey :=
    Reference.hex
      "0279be667ef9dcbbac55a06295ce870b07029bfcdb2dce28d959f2815b16f81798" in
  let h := Reference.hex "751e76e8199196d454941c45d1b3a323f1433bd6" in
  public_key_to_legacy_address (H := Reference.hashlib) pubkey
  = str_of "1BgGZ9tcN4rm9KBzDn7KprQz87SZ26SAMH"
  /\ (exists checksum,
        legacy_decode (str_of "1BgGZ9tcN4rm9KBzDn7KprQz87SZ26SAMH")
        = Ok ([0x00] ++ h ++ checksum))
  /\ cashaddr_decode
       (str_of "bitcoincash:qp63uahgrxged4z5jswyt5dn5v3lzsem6cy4spdc2h")
     = Ok ([0x00] ++ h).
Proof.
  intros pubkey h.
  destruct (address_formats_same_hash160 (H := Reference.hashlib)
              (HS := reference_sizes) pubkey)
    as (_ & (checksum & _ & Hlegacy) & (address & Haddr & Hcash)).
  assert (Eh : Reference.ripemd160 (Reference.sha256 pubkey) = h)
    by (vm_compute; reflexivity).
  assert (El : public_key_to_legacy_address (H := Reference.hashlib) pubkey
               = str_of "1BgGZ9tcN4rm9KBzDn7KprQz87SZ26SAMH")
    by (vm_compute; reflexivity).
  assert (Ea : public_key_to_cashaddr_address (H := Reference.hashlib) pubkey
               = Ok (str_of
                       "bitcoincash:qp63uahgrxged4z5jswyt5dn5v3lzsem6cy4spdc2h"))
    by (vm_compute; reflexivity).
  cbn [hashlib_ripemd160 hashlib_sha256 Reference.hashlib] in Hlegacy, Hcash.
  rewrite Eh in Hlegacy, Hcash. rewrite El in Hlegacy.
  rewrite Ea in Haddr. injection Haddr as <-.
  split; [exact El|]. split; [exists checksum; exact Hlegacy | exact Hcash].
Defined.

(** ** Seeds *)



(** ** Mnemonic validation *)




(** The mnemonic "abandon" eleven times, then "about", is valid. *)
Example validate_mnemonic_valid :
  Seed._validate_mnemonic (H := Reference.hashlib) (H0 := Reference.resources)
    (<["_mnemonic" :=
         Seed.VList (repeat (str_of "abandon") 11 ++ [str_of "about"])]> ∅)
  = Ok true.
Proof. vm_compute. reflexivity. Qed.

(** C10.  Comparing a [Seed] instance with a [Seed] instance raises
    [AttributeError]: [__eq__] reads [seed_bytes], a name that the class
    does not define and that neither the constructor nor a method
    assigns.  Comparing with an object of another class returns
    [False]. *)
Theorem seed_eq_raises `{H : Hashlib} `{E : Ecdsa} `{R : Resources}
    (a b : gmap string Seed.pyval) (v : Seed.pyval) :
  Seed.reachable a -> Seed.reachable b ->
  Seed.__eq__ a (Seed.SeedInstance b) = Raise (AttributeError "seed_bytes")
  /\ Seed.__eq__ a (Seed.SeedInstance a) = Raise (AttributeError "seed_bytes")
  /\ Seed.__eq__ a (Seed.OtherObject v) = Ok false
  /\ "seed_bytes"%string ∉ Seed.class_attrs.
Proof.
  intros Ha Hb. unfold Seed.__eq__, Seed.getattr.
  rewrite (reachable_no_seed_bytes a Ha). cbn [bind].
  repeat split. apply seed_bytes_not_class_attr.
Qed.

(** A seed built from the mnemonic "abandon ... about", and the same seed
    after a passphrase was set and the keys were derived. *)
Lemma seed_eq_raises_witness :
  exists a b,
    Seed.__init__ (H := Reference.hashlib) (H0 := Reference.resources)
      (repeat (str_of "abandon") 11 ++ [str_of "about"]) = Ok a
    /\ b = Seed.set_passphrase a (str_of "TREZOR")
    /\ Seed.__eq__ a (Seed.SeedInstance b)
       = Raise (AttributeError "seed_bytes").
Proof.
  assert (Hinit : exists a,
            Seed.__init__ (H := Reference.hashlib) (H0 := Reference.resources)
              (repeat (str_of "abandon") 11 ++ [str_of "about"]) = Ok a).
  { unfold Seed.__init__. cbn [repeat app].
    assert (Hv : forall self,
              self !! "_mnemonic"
              = Some (Seed.VList
                        (repeat (str_of "abandon") 11 ++ [str_of "about"])) ->
              Seed._validate_mnemonic (H := Reference.hashlib)
                (H0 := Reference.resources) self = Ok true).
    { intros self Hs. unfold Seed._validate_mnemonic, Seed.get_list,
        Seed.getattr. rewrite Hs. cbn [bind]. vm_compute. reflexivity. }
    rewrite Hv; [eexists; reflexivity|].
    by rewrite !lookup_insert_ne, lookup_insert_eq by done. }
  destruct Hinit as [a Ha].
  exists a, (Seed.set_passphrase a (str_of "TREZOR")).
  split; [exact Ha|]. split; [reflexivity|].
  apply (seed_eq_raises (H := Reference.hashlib) (E := Reference.ecdsa)
           (R := Reference.resources) a
           (Seed.set_passphrase a (str_of "TREZOR")) (Seed.VStr [])).
  - by apply (Seed.reach_init _ a Ha).
  - apply Seed.reach_set_passphrase. by apply (Seed.reach_init _ a Ha).
Defined.
